(** * drone_air_system: the merged LDD + pump firmware and its bus adapter

    A shallow embedding of [arduino/sensor/sensor.ino] and of
    [arduino/libraries/MeComAPI/src/ArduinoSerial/ArduinoSerial.cpp].

    Target conventions (Arduino Nano Every, avr-gcc): [int] is 16 bits,
    [long] and [unsigned long] are 32 bits, [float] and [double] are both
    IEEE-754 binary32.  Machine integers are [Z] with the wrap-around
    written out; floats are [spec_float] with the binary32 operations of
    the standard library's [SpecFloat]. *)

From Stdlib Require Import ZArith List String Ascii Bool Lia.
From Stdlib Require Import Floats.SpecFloat.
Import ListNotations.

Local Open Scope string_scope.
Local Open Scope Z_scope.

(** ** Machine integers *)

Definition u8  (x : Z) : Z := x mod 2 ^ 8.
Definition u16 (x : Z) : Z := x mod 2 ^ 16.
Definition u32 (x : Z) : Z := x mod 2 ^ 32.
(** [int] (two's complement, 16 bits) and [long] (32 bits). *)
Definition s16 (x : Z) : Z := (x + 2 ^ 15) mod 2 ^ 16 - 2 ^ 15.
Definition s32 (x : Z) : Z := (x + 2 ^ 31) mod 2 ^ 32 - 2 ^ 31.

(** ** binary32 *)

Definition float := spec_float.

Definition prec32 : Z := 24.
Definition emax32 : Z := 128.

Definition NAN : float := S754_nan.
Definition f32_of_Z (z : Z) : float := binary_normalize prec32 emax32 z 0 false.
Definition f32_add : float -> float -> float := SFadd prec32 emax32.
Definition f32_sub : float -> float -> float := SFsub prec32 emax32.
Definition f32_mul : float -> float -> float := SFmul prec32 emax32.
Definition f32_div : float -> float -> float := SFdiv prec32 emax32.

(** A decimal literal [n/d] rounded to the nearest binary32, as the
    compiler does for [1.6]. *)
Definition f32_lit (n d : Z) : float := f32_div (f32_of_Z n) (f32_of_Z d).

Definition is_nan (x : float) : bool :=
  match x with S754_nan => true | _ => false end.

(** ** Bus transport adapter: [ArduinoSerial_recvData] *)

Module ArduinoSerial.

(** Why the receive loop stopped. *)
Inductive stop : Type :=
| StopEol        (* a carriage return was stored *)
| StopFull       (* nread reached MEPORT_MAX_RX_BUF_SIZE *)
| StopTimeout.   (* the while condition failed *)

Record received : Type := mkReceived {
rcv_buf   : list Z;   (* RcvBuf[0..nread) *)
rcv_stop  : stop;
rcv_iters : nat       (* loop bodies executed *)
}.

Section Receive.
(** The two macros come from MePort.h. *)
Variable MEPORT_MAX_RX_BUF_SIZE : Z.
Variable MEPORT_SET_AND_QUERY_TIMEOUT : Z.
(** [read i]: the value of the i-th call of [ArduinoSerial->read()],
    negative when no byte is available.  [millis k]: the value of the
    k-th call of [millis()]; call 0 sets [startTime], and the check
    that ends loop body [i] is call [i+1] (every body that does not
    break evaluates the condition exactly once). *)
Variable read : nat -> Z.
Variable millis : nat -> Z.

Definition startTime : Z := millis 0%nat.

(** [millis() - startTime] in [unsigned long]. *)
Definition elapsed (i : nat) : Z := u32 (millis (S i) - startTime).

Definition in_time (i : nat) : bool :=
  elapsed i <? MEPORT_SET_AND_QUERY_TIMEOUT.

Definition CR : Z := 13.

(** The do-while loop; [i] counts the bodies already executed, [buf]
    is [RcvBuf[0..nread)]. *)
Fixpoint recv_loop (fuel : nat) (i : nat) (buf : list Z) : option received :=
  match fuel with
  | O => None
  | S fuel' =>
      let inb := read i in
      if inb <? 0 then
        (* continue: jumps to the loop condition *)
        if in_time i then recv_loop fuel' (S i) buf
        else Some (mkReceived buf StopTimeout (S i))
      else
        let buf' := (buf ++ [inb])%list in
        let eol := inb =? CR in
        if eol then Some (mkReceived buf' StopEol (S i))
        else if Z.of_nat (List.length buf') >=? MEPORT_MAX_RX_BUF_SIZE
        then Some (mkReceived buf' StopFull (S i))
        else if in_time i then recv_loop fuel' (S i) buf'
        else Some (mkReceived buf' StopTimeout (S i))
  end.

(** What is handed to [MePort_ReceiveByte]: nothing when [nread = 0]. *)
Definition forwarded (r : received) : option (list Z) :=
  if 0 <? Z.of_nat (List.length (rcv_buf r)) then Some (rcv_buf r) else None.

Definition ArduinoSerial_recvData (fuel : nat)
  : option (received * option (list Z)) :=
  match recv_loop fuel 0%nat [] with
  | Some r => Some (r, forwarded r)
  | None => None
  end.

End Receive.

End ArduinoSerial.

(** ** Characters and C strings *)

Definition SPACE : ascii := " "%char.
Definition TAB : ascii := "009"%char.
Definition NUL : ascii := "000"%char.
Definition COMMA : ascii := ","%char.

(** [c == ' ' || c == '\t'] *)
Definition is_blank (c : ascii) : bool := Ascii.eqb c SPACE || Ascii.eqb c TAB.

Definition code (c : ascii) : Z := Z.of_N (N_of_ascii c).

(** [toupper]: lower-case ASCII letters are shifted, everything else is
    returned unchanged. *)
Definition toupper (c : ascii) : ascii :=
  if (97 <=? code c) && (code c <=? 122)
  then ascii_of_N (N_of_ascii c - 32) else c.

Fixpoint str_map (f : ascii -> ascii) (s : string) : string :=
  match s with
  | EmptyString => EmptyString
  | String c s' => String (f c) (str_map f s')
  end.

Fixpoint str_take (n : nat) (s : string) : string :=
  match n, s with
  | S n', String c s' => String c (str_take n' s')
  | _, _ => EmptyString
  end.

Fixpoint str_drop (n : nat) (s : string) : string :=
  match n, s with
  | S n', String _ s' => str_drop n' s'
  | _, _ => s
  end.

(** The pointer walks past blanks and tabs: [while (p[0] == ' ' || p[0] == '\t') p++;] *)
Fixpoint skip_blanks (s : string) : string :=
  match s with
  | String c s' => if is_blank c then skip_blanks s' else s
  | EmptyString => s
  end.

(** [strchr(s, c)] as the offset of the first occurrence. *)
Fixpoint strchr (s : string) (c : ascii) : option nat :=
  match s with
  | EmptyString => None
  | String a s' =>
      if Ascii.eqb a c then Some O
      else match strchr s' c with Some i => Some (S i) | None => None end
  end.

(** The C string held in a buffer: the characters before the first NUL. *)
Fixpoint c_str (s : string) : string :=
  match s with
  | EmptyString => EmptyString
  | String c s' => if Ascii.eqb c NUL then EmptyString else String c (c_str s')
  end.

Fixpoint count_char (c : ascii) (s : string) : nat :=
  match s with
  | EmptyString => O
  | String a s' => (if Ascii.eqb a c then 1 else 0) + count_char c s'
  end.

(** ** Arduino core and libc helpers used by the sketch *)

(** [#define constrain(amt,low,high) ((amt)<(low)?(low):((amt)>(high)?(high):(amt)))] *)
Definition constrain (amt low high : Z) : Z :=
  if amt <? low then low else if amt >? high then high else amt.

(** [long map(long x, long in_min, long in_max, long out_min, long out_max)];
    C division truncates towards zero. *)
Definition map (x in_min in_max out_min out_max : Z) : Z :=
  s32 (Z.quot (s32 ((x - in_min) * (out_max - out_min))) (in_max - in_min) + out_min).

Definition is_digit (c : ascii) : bool := (48 <=? code c) && (code c <=? 57).

(** [isspace] in the C locale. *)
Definition isspace (c : ascii) : bool :=
  (code c =? 32) || ((9 <=? code c) && (code c <=? 13)).

Fixpoint atoi_digits (acc : Z) (s : string) : Z :=
  match s with
  | String c s' => if is_digit c then atoi_digits (acc * 10 + (code c - 48)) s' else acc
  | EmptyString => acc
  end.

Fixpoint atoi_skip (s : string) : string :=
  match s with
  | String c s' => if isspace c then atoi_skip s' else s
  | EmptyString => s
  end.

(** [atoi]: optional white space, optional sign, decimal digits; the
    value is delivered in a 16-bit [int]. *)
Definition atoi (s : string) : Z :=
  match atoi_skip s with
  | String c s' =>
      if Ascii.eqb c "-" then s16 (- atoi_digits 0 s')
      else if Ascii.eqb c "+" then s16 (atoi_digits 0 s')
      else s16 (atoi_digits 0 (String c s'))
  | EmptyString => 0
  end.

(** [Print::printNumber(n, 10)]: digits from the least significant one,
    [do { c = n % 10; n /= 10; *--str = '0' + c; } while (n);] into a
    buffer of [8 * sizeof(long) + 1] characters. *)
Fixpoint printNumber_loop (fuel : nat) (n : Z) (acc : string) : string :=
  match fuel with
  | O => acc
  | S fuel' =>
      let acc' := String (ascii_of_N (Z.to_N (48 + n mod 10))) acc in
      if n / 10 =? 0 then acc' else printNumber_loop fuel' (n / 10) acc'
  end.

Definition printNumber (n : Z) : string := printNumber_loop 32 n EmptyString.

(** [Print::print(long)] in base 10. *)
Definition print_long (n : Z) : string :=
  if n <? 0 then String "-" (printNumber (- n)) else printNumber n.

(** ** Observable effects of the sketch *)

(** The overloads of [Serial.print] the sketch uses. *)
Inductive serial_item : Type :=
| SStr (s : string)                 (* print(F("...")), print(char* ) *)
| SChar (c : ascii)                 (* print(char) *)
| SLong (n : Z)                     (* print(int), print(long) *)
| SFloat (x : float) (digits : Z).  (* print(double, int) *)

Inductive event : Type :=
| Serial_print (it : serial_item)
| Serial_println (it : serial_item)
| MeCom_getf (parId inst : Z)               (* MeCom_ParValuef(.., MeGet) *)
| MeCom_getl (parId inst : Z)               (* MeCom_ParValuel(.., MeGet) *)
| MeCom_setf (parId inst : Z) (v : float)   (* MeCom_ParValuef(.., MeSet) *)
| MeCom_setl (parId inst : Z) (v : Z)       (* MeCom_ParValuel(.., MeSet) *)
| AnalogWrite (pin value : Z).

(** The parameter client behind the bus, as an interface, as one pass of
    the loop sees it: the return code of each call (1 means success) and,
    for a get, the value left in the fields struct.  Arguments: address,
    parameter id, instance. *)
Class MeComClient : Type := mkMeCom {
  MeCom_ParValuef_get : Z -> Z -> Z -> Z * float;
  MeCom_ParValuel_get : Z -> Z -> Z -> Z * Z;
  MeCom_ParValuef_set : Z -> Z -> Z -> float -> Z;
  MeCom_ParValuel_set : Z -> Z -> Z -> Z -> Z
}.

(** What the sketch takes from libc and from the compiler's run-time
    support: [atof], and the result of converting to [long] a float that
    has no [long] value (NaN, infinities, out of range), which C leaves
    undefined. *)
Class Platform : Type := mkPlatform {
  atof : string -> float;
  long_of_undef : float -> Z
}.

(** The reply of the HDC2022 to one poll. *)
Record WireReply : Type := mkWire {
  endTransmission : Z;        (* 0 = success *)
  requestFrom : Z;            (* bytes received *)
  wire_data : Z * Z * Z * Z   (* the four successive Wire.read() values *)
}.

(** The globals and function-level statics of the sketch. *)
Record Device : Type := mkDevice {
  fgPulses : Z;               (* volatile uint32_t *)
  currentSpeedPercent : Z;
  lastTemperature : float;
  lastHumidity : float;
  cmdBuf : string;            (* cmdBuf[0..cmdLen) *)
  lastPrint : Z;              (* static in loop() *)
  lastPulses : Z              (* static in loop() *)
}.

Definition initial : Device :=
  mkDevice 0 40 (f32_of_Z (-40)) (f32_of_Z 0) "" 0 0.

Definition set_fgPulses (v : Z) (d : Device) : Device :=
  mkDevice v (currentSpeedPercent d) (lastTemperature d) (lastHumidity d)
           (cmdBuf d) (lastPrint d) (lastPulses d).
Definition set_currentSpeedPercent (v : Z) (d : Device) : Device :=
  mkDevice (fgPulses d) v (lastTemperature d) (lastHumidity d)
           (cmdBuf d) (lastPrint d) (lastPulses d).
Definition set_cache (t h : float) (d : Device) : Device :=
  mkDevice (fgPulses d) (currentSpeedPercent d) t h
           (cmdBuf d) (lastPrint d) (lastPulses d).
Definition set_cmdBuf (v : string) (d : Device) : Device :=
  mkDevice (fgPulses d) (currentSpeedPercent d) (lastTemperature d)
           (lastHumidity d) v (lastPrint d) (lastPulses d).
Definition set_lastPrint (v : Z) (d : Device) : Device :=
  mkDevice (fgPulses d) (currentSpeedPercent d) (lastTemperature d)
           (lastHumidity d) (cmdBuf d) v (lastPulses d).
Definition set_lastPulses (v : Z) (d : Device) : Device :=
  mkDevice (fgPulses d) (currentSpeedPercent d) (lastTemperature d)
           (lastHumidity d) (cmdBuf d) (lastPrint d) v.

(** *** A state-and-output monad for the sketch's procedures *)

Definition M (A : Type) : Type := Device -> A * Device * list event.

Definition ret {A} (a : A) : M A := fun d => (a, d, []).

Definition bind {A B} (m : M A) (k : A -> M B) : M B :=
  fun d =>
    let '(a, d1, o1) := m d in
    let '(b, d2, o2) := k a d1 in
    (b, d2, (o1 ++ o2)%list).

Notation "x <- m ;; k" := (bind m (fun x => k))
  (at level 61, m at next level, right associativity).
Notation "m ;; k" := (bind m (fun _ => k))
  (at level 61, right associativity).
Notation "' p <- m ;; k" := (bind m (fun x => match x with p => k end))
  (at level 61, p pattern, m at next level, right associativity).

Definition emit (e : event) : M unit := fun d => (tt, d, [e]).
Definition get : M Device := fun d => (d, d, []).
Definition modify (f : Device -> Device) : M unit := fun d => (tt, f d, []).

Definition print (it : serial_item) : M unit := emit (Serial_print it).
Definition println (it : serial_item) : M unit := emit (Serial_println it).

Definition state_of {A} (r : A * Device * list event) : Device := snd (fst r).
Definition output_of {A} (r : A * Device * list event) : list event := snd r.
Definition value_of {A} (r : A * Device * list event) : A := fst (fst r).

(** ** The sketch: sensor.ino *)

Definition DEV_ADDRESS : Z := 1.
Definition INST_MON : Z := 1.
Definition INST_COMMON : Z := 1.

Definition P_min   : float := f32_of_Z 0.
Definition P_max   : float := f32_lit 16 10.
Definition Out_min : float := f32_of_Z 1638.
Definition Out_max : float := f32_of_Z 14746.

Definition pumpPwmPin : Z := 9.
Definition PULSES_PER_REV : Z := 6.

(** [(long)x] for a float [x]: truncation towards zero where the value
    fits. *)
Definition trunc_float (x : float) : option Z :=
  match x with
  | S754_zero _ => Some 0
  | S754_finite s m e =>
      let v := if 0 <=? e then Zpos m * 2 ^ e else Zpos m / 2 ^ (- e) in
      Some (if s then - v else v)
  | _ => None
  end.

Section Sketch.
Context {P : Platform} {mc : MeComClient}.

Definition float_to_long (x : float) : Z :=
  match trunc_float x with
  | Some z => if (- 2 ^ 31 <=? z) && (z <? 2 ^ 31) then z else long_of_undef x
  | None => long_of_undef x
  end.

(** *** MeCom helpers *)

(** Both return the value together with the reference parameter
    [okOut]; [f_Value] and [l_Value] are the fields the client fills. *)
Definition readFloat (parId inst : Z) : M (float * bool) :=
  emit (MeCom_getf parId inst) ;;
  let reply := MeCom_ParValuef_get DEV_ADDRESS parId inst in
  let ok := u8 (fst reply) in
  let f_Value := snd reply in
  let okOut := ok =? 1 in
  ret (if okOut then f_Value else NAN, okOut).

Definition readLong (parId inst : Z) : M (Z * bool) :=
  emit (MeCom_getl parId inst) ;;
  let reply := MeCom_ParValuel_get DEV_ADDRESS parId inst in
  let ok := u8 (fst reply) in
  let l_Value := snd reply in
  let okOut := ok =? 1 in
  ret (if okOut then s32 l_Value else -1, okOut).

Definition writeFloat (parId inst : Z) (value : float) : M bool :=
  emit (MeCom_setf parId inst value) ;;
  ret (u8 (MeCom_ParValuef_set DEV_ADDRESS parId inst value) =? 1).

Definition writeLong (parId inst : Z) (value : Z) : M bool :=
  emit (MeCom_setl parId inst value) ;;
  ret (u8 (MeCom_ParValuel_set DEV_ADDRESS parId inst value) =? 1).

(** *** Pump, tachometer, HDC2022, pressure *)

Definition setPumpSpeed (speedPercent : Z) : M unit :=
  let speedPercent := constrain speedPercent 0 100 in
  (* Inverse PWM: 0% = 255 (Stop), 100% = 0 (Full) *)
  let pwmValue := s16 (map speedPercent 0 100 255 0) in
  emit (AnalogWrite pumpPwmPin pwmValue).

Definition ISR_fg (d : Device) : Device :=
  set_fgPulses (u32 (fgPulses d + 1)) d.

(** [temp] and [hum] are the reference parameters: passed in, and
    returned as left by the call. *)
Definition readHDCData (w : WireReply) (temp hum : float)
  : bool * float * float :=
  if negb (endTransmission w =? 0) then (false, temp, hum) else
  let got := u8 (requestFrom w) in
  if negb (got =? 4) then (false, temp, hum) else
  let '(b0, b1, b2, b3) := wire_data w in
  let tRaw := u16 (Z.lor b0 (Z.shiftl b1 8)) in
  let hRaw := u16 (Z.lor b2 (Z.shiftl b3 8)) in
  let temp := f32_sub (f32_mul (f32_div (f32_of_Z tRaw) (f32_of_Z 65536))
                               (f32_of_Z 165)) (f32_of_Z 40) in
  let hum := f32_mul (f32_div (f32_of_Z hRaw) (f32_of_Z 65536)) (f32_of_Z 100) in
  (true, temp, hum).

(** The calibration applied when [status == 0]. *)
Definition pressure_calibration (rawCounts : Z) : float :=
  let pressure_bar :=
    f32_add (f32_div (f32_mul (f32_sub (f32_of_Z rawCounts) Out_min)
                              (f32_sub P_max P_min))
                     (f32_sub Out_max Out_min)) P_min in
  f32_mul pressure_bar (f32_of_Z 1000).

Definition rawCounts_of (byte1 byte2 : Z) : Z :=
  u16 (Z.lor (Z.shiftl (Z.land byte1 63) 8) byte2).

Definition status_of (byte1 : Z) : Z := Z.land (Z.shiftr byte1 6) 3.

(** Pressure SPI read -> pressure_mb, status (0=OK); [spi] holds the
    two bytes returned by [SPI.transfer]. *)
Definition readPressure (spi : Z * Z) : float * Z :=
  let byte1 := u8 (fst spi) in
  let byte2 := u8 (snd spi) in
  let rawCounts := rawCounts_of byte1 byte2 in
  let status := status_of byte1 in
  if status =? 0 then (pressure_calibration rawCounts, status)
  else (NAN, status).

(** *** Unified command parser *)

Definition missing (arg : option string) : bool :=
  match arg with
  | None => true
  | Some EmptyString => true
  | Some _ => false
  end.

Definition arg_text (arg : option string) : string :=
  match arg with Some a => a | None => "" end.

(** The tokenising prologue of [handleCommandLine] on a line whose
    leading blanks are already skipped: the upper-cased first word
    [tmp] and the pointer [arg]. *)
Definition tokenise (line : string) : string * option string :=
  let tmp := str_take 127 line in        (* strncpy(tmp, line, sizeof(tmp)-1) *)
  let sp := strchr tmp SPACE in
  let tmp := match sp with Some i => str_take i tmp | None => tmp end in
  let tmp := str_map toupper tmp in
  let arg := match sp with
             | Some i => Some (skip_blanks (str_drop (S i) line))
             | None => None
             end in
  (tmp, arg).

Definition handleCommandLine (line : string) : M unit :=
  let line := skip_blanks line in
  if String.eqb line "" then ret tt else
  let '(tmp, arg) := tokenise line in
  (* ---- generic ---- *)
  if String.eqb tmp "PING" then println (SStr "OK PONG") else
  (* ---- LDD commands ---- *)
  if String.eqb tmp "GET" then println (SStr "OK GET") else
  if String.eqb tmp "RESET" then
    ok <- writeLong 111 INST_COMMON 1 ;;
    println (SStr (if ok then "OK RESET" else "ERR RESET"))
  else
  if String.eqb tmp "SETC" then
    if missing arg then println (SStr "ERR SETC missing_value") else
    let amps := atof (arg_text arg) in
    ok <- writeFloat 2102 INST_MON amps ;;
    if ok then print (SStr "OK SETC ") ;; println (SFloat amps 3)
    else println (SStr "ERR SETC")
  else
  if String.eqb tmp "SETT" then
    if missing arg then println (SStr "ERR SETT missing_value") else
    let degC := atof (arg_text arg) in
    ok <- writeFloat 4000 INST_MON degC ;;
    if ok then print (SStr "OK SETT ") ;; println (SFloat degC 2)
    else println (SStr "ERR SETT")
  else
  (* ---- Pump power ---- *)
  if String.eqb tmp "SETPWR" || String.eqb tmp "SETPOWER" then
    if missing arg then println (SStr "ERR SETPWR missing_value") else
    let pct := atoi (arg_text arg) in
    let pct := constrain pct 0 100 in
    modify (set_currentSpeedPercent pct) ;;
    d <- get ;;
    setPumpSpeed (currentSpeedPercent d) ;;
    print (SStr "OK SETPWR ") ;;
    println (SLong (currentSpeedPercent d))
  else
  print (SStr "ERR unknown_cmd ") ;;
  println (SStr tmp).

(** [input]: the bytes [Serial.read()] delivers while
    [Serial.available() > 0]. *)
Fixpoint pollUsbCommands (input : list ascii) : M unit :=
  match input with
  | [] => ret tt
  | c :: rest =>
      if Ascii.eqb c "013" then pollUsbCommands rest
      else if Ascii.eqb c "010" then
        d <- get ;;
        handleCommandLine (c_str (cmdBuf d)) ;;
        modify (set_cmdBuf "") ;;
        pollUsbCommands rest
      else
        d <- get ;;
        (if (String.length (cmdBuf d) <? 127)%nat
         then modify (set_cmdBuf (cmdBuf d ++ String c ""))
         else ret tt) ;;
        pollUsbCommands rest
  end.

(** *** CSV header (full LDD + pump) *)

Definition merged_header : string :=
  "ms," ++
  "ErrorNumber,ErrorInstance,ErrorParameter,ErrorText," ++
  "LDD_ActualOutputCurrent,LDD_ActualOutputVoltage,LDD_ActualOutputCurrentRaw," ++
  "LDD_ActualAnodeVoltage,LDD_ActualCathodeVoltage," ++
  "LDD_NominalOutputCurrentRamp," ++
  "TEC_TargetObjectTemperature,TEC_NominalObjectTemperatureRamp,TEC_ThermalPowerModelCurrent," ++
  "TEC_ActualOutputCurrent,TEC_ActualOutputVoltage," ++
  "TEC_ObjectTemperature,TEC_SinkTemperature," ++
  "AnalogVoltageInputRawADC,AnalogVoltageInput," ++
  "LaserPower,OutputLevel," ++
  "DriverInputVoltage,Internal8V,Internal5V,Internal3V3,InternalMinus3V3," ++
  "DeviceTemperature,PowerstageTemperature," ++
  "pump_rpm,pressure_mb,temp_c,humidity_pct,power_pct,pressure_status".

Definition printMergedHeader : M unit := println (SStr merged_header).

(** *** Main loop *)

(** What one pass of [loop()] reads from the outside. *)
Record LoopInput : Type := mkLoopInput {
  usb_in : list ascii;        (* bytes pending on Serial *)
  millis : Z;                 (* millis() *)
  spi : Z * Z;                (* the two SPI.transfer results *)
  wire : WireReply;           (* the HDC2022 transaction *)
  err_text : option string    (* the library's error text, if the
                                 getter is compiled in and succeeds *)
}.

(** The getter is compiled in only if MeComAPI defines one of two
    macros; otherwise the field is left blank. *)
Definition printErrorTextField (inp : LoopInput) : M unit :=
  match err_text inp with
  | Some buf => print (SStr buf)
  | None => ret tt
  end.

Definition comma : M unit := print (SChar COMMA).

(** The body of [if (now - lastPrint >= 1000)], after [lastPrint = now]. *)
Definition telemetry (inp : LoopInput) : M unit :=
  (* ---------- Pump RPM (non-blocking) ---------- *)
  d <- get ;;
  let pulses := fgPulses d in
  let dp := u32 (pulses - lastPulses d) in
  modify (set_lastPulses pulses) ;;
  let pump_rpm :=
    f32_div (f32_mul (f32_of_Z dp) (f32_of_Z 60)) (f32_of_Z PULSES_PER_REV) in
  (* ---------- Pressure ---------- *)
  let '(pressure_mb, pstat) := readPressure (spi inp) in
  (* ---------- HDC ---------- *)
  let '(hOk, temperature, humidity) :=
    readHDCData (wire inp) (lastTemperature d) (lastHumidity d) in
  (if hOk : bool then modify (set_cache temperature humidity) else ret tt) ;;
  (* ---------- Full LDD read ---------- *)
  '(errNo, okL)      <- readLong 105 INST_COMMON ;;
  '(errInst, okL)    <- readLong 106 INST_COMMON ;;
  '(errPar, okL)     <- readLong 107 INST_COMMON ;;
  '(ldd_i, okL)      <- readFloat 1100 INST_MON ;;
  '(ldd_v, okL)      <- readFloat 1101 INST_MON ;;
  '(ldd_i_raw_f, okL) <- readFloat 1102 INST_MON ;;
  let ldd_i_raw := float_to_long ldd_i_raw_f in
  '(ldd_va, okL)     <- readFloat 1104 INST_MON ;;
  '(ldd_vc, okL)     <- readFloat 1105 INST_MON ;;
  '(ldd_i_ramp, okL) <- readFloat 1402 INST_MON ;;
  '(tec_target, okL) <- readFloat 1010 INST_MON ;;
  '(tec_nom_r, okL)  <- readFloat 1011 INST_MON ;;
  '(tec_modeli, okL) <- readFloat 1012 INST_MON ;;
  '(tec_i, okL)      <- readFloat 1020 INST_MON ;;
  '(tec_v, okL)      <- readFloat 1021 INST_MON ;;
  '(obj_t, okL)      <- readFloat 1000 INST_MON ;;
  '(sink_t, okL)     <- readFloat 1001 INST_MON ;;
  '(ain_adc_f, okL)  <- readFloat 1502 INST_MON ;;
  let ain_adc := float_to_long ain_adc_f in
  '(ain_v, okL)      <- readFloat 1500 INST_MON ;;
  '(laser_p, okL)    <- readFloat 1600 INST_MON ;;
  '(out_level, okL)  <- readFloat 1601 INST_MON ;;
  '(vin, okL)        <- readFloat 1200 INST_MON ;;
  '(v8, okL)         <- readFloat 1201 INST_MON ;;
  '(v5, okL)         <- readFloat 1202 INST_MON ;;
  '(v33, okL)        <- readFloat 1203 INST_MON ;;
  '(vm33, okL)       <- readFloat 1204 INST_MON ;;
  '(dev_t, okL)      <- readFloat 1300 INST_MON ;;
  '(pstage_t, okL)   <- readFloat 1301 INST_MON ;;
  (* ---------- Print one merged CSV row ---------- *)
  print (SLong errNo) ;; comma ;;
  print (SLong errInst) ;; comma ;;
  print (SLong errPar) ;; comma ;;
  printErrorTextField inp ;; comma ;;
  print (SFloat ldd_i 6) ;; comma ;;
  print (SFloat ldd_v 6) ;; comma ;;
  print (SLong ldd_i_raw) ;; comma ;;
  print (SFloat ldd_va 6) ;; comma ;;
  print (SFloat ldd_vc 6) ;; comma ;;
  print (SFloat ldd_i_ramp 6) ;; comma ;;
  print (SFloat tec_target 3) ;; comma ;;
  print (SFloat tec_nom_r 3) ;; comma ;;
  print (SFloat tec_modeli 6) ;; comma ;;
  print (SFloat tec_i 6) ;; comma ;;
  print (SFloat tec_v 6) ;; comma ;;
  print (SFloat obj_t 3) ;; comma ;;
  print (SFloat sink_t 3) ;; comma ;;
  print (SLong ain_adc) ;; comma ;;
  print (SFloat ain_v 6) ;; comma ;;
  print (SFloat laser_p 6) ;; comma ;;
  print (SFloat out_level 6) ;; comma ;;
  print (SFloat vin 3) ;; comma ;;
  print (SFloat v8 3) ;; comma ;;
  print (SFloat v5 3) ;; comma ;;
  print (SFloat v33 3) ;; comma ;;
  print (SFloat vm33 3) ;; comma ;;
  print (SFloat dev_t 3) ;; comma ;;
  print (SFloat pstage_t 3) ;; comma ;;
  (* Pump block *)
  print (SFloat pump_rpm 0) ;; comma ;;
  (if pstat =? 0 then print (SFloat pressure_mb 1)
   else print (SStr "nan")) ;;
  comma ;;
  print (SFloat temperature 1) ;; comma ;;
  print (SFloat humidity 1) ;; comma ;;
  d' <- get ;;
  print (SLong (currentSpeedPercent d')) ;; comma ;;
  println (SLong pstat).

Definition loop (inp : LoopInput) : M unit :=
  pollUsbCommands (usb_in inp) ;;
  d <- get ;;
  let now := u32 (millis inp) in
  if u32 (now - lastPrint d) >=? 1000 then
    modify (set_lastPrint now) ;;
    telemetry inp
  else ret tt.
End Sketch.

(** ** The text on the host link *)

(** [printFloat] stands for the core's [Print::printFloat]. *)
Definition render_item (printFloat : float -> Z -> string) (it : serial_item)
  : string :=
  match it with
  | SStr s => s
  | SChar c => String c ""
  | SLong n => print_long n
  | SFloat x digits => printFloat x digits
  end.

(** The completed lines of a trace: [println] ends the current line. *)
Fixpoint serial_lines_from (printFloat : float -> Z -> string) (cur : string)
  (t : list event) : list string :=
  match t with
  | [] => []
  | Serial_print it :: t' =>
      serial_lines_from printFloat (cur ++ render_item printFloat it) t'
  | Serial_println it :: t' =>
      (cur ++ render_item printFloat it) :: serial_lines_from printFloat "" t'
  | _ :: t' => serial_lines_from printFloat cur t'
  end.

Definition serial_lines (printFloat : float -> Z -> string) (t : list event)
  : list string :=
  serial_lines_from printFloat "" t.

Definition csv_field_count (line : string) : nat := S (count_char COMMA line).

(** The serial items of a trace, in order, and the bus writes. *)
Definition serial_items (t : list event) : list serial_item :=
  flat_map (fun e => match e with
                     | Serial_print it | Serial_println it => [it]
                     | _ => []
                     end) t.

Definition is_write (e : event) : bool :=
  match e with
  | MeCom_setf _ _ _ | MeCom_setl _ _ _ | AnalogWrite _ _ => true
  | _ => false
  end.

(** The fields of a printed row: the items between the [','] items. *)
Fixpoint split_fields (cur : list serial_item) (its : list serial_item)
  : list (list serial_item) :=
  match its with
  | [] => [cur]
  | SChar c :: its' =>
      if Ascii.eqb c COMMA then cur :: split_fields [] its'
      else split_fields (cur ++ [SChar c])%list its'
  | it :: its' => split_fields (cur ++ [it])%list its'
  end.

Definition row_fields (t : list event) : list (list serial_item) :=
  split_fields [] (serial_items t).

(** * Specification vocabulary *)

(** ** Bus transport adapter *)

(** The bytes delivered by the [n] calls of [read] from call [i] on. *)
Definition bytes_read (read : nat -> Z) (i n : nat) : list Z :=
  filter (fun b => 0 <=? b) (List.map read (seq i n)).

Definition no_cr (l : list Z) : Prop := Forall (fun b => b <> ArduinoSerial.CR) l.

(** What each way of stopping says about the frame: a terminator is the
    last byte and the only carriage return; a full buffer holds exactly
    the capacity; a timeout means the last check failed. *)
Definition stop_ok (MAX TIMEOUT : Z) (millis : nat -> Z)
  (r : ArduinoSerial.received) : Prop :=
  match ArduinoSerial.rcv_stop r with
  | ArduinoSerial.StopEol =>
      exists body,
        ArduinoSerial.rcv_buf r = (body ++ [ArduinoSerial.CR])%list /\
        no_cr body /\
        Z.of_nat (List.length (ArduinoSerial.rcv_buf r)) <= MAX
  | ArduinoSerial.StopFull =>
      Z.of_nat (List.length (ArduinoSerial.rcv_buf r)) = MAX /\
      no_cr (ArduinoSerial.rcv_buf r)
  | ArduinoSerial.StopTimeout =>
      ArduinoSerial.in_time TIMEOUT millis (pred (ArduinoSerial.rcv_iters r)) = false /\
      Z.of_nat (List.length (ArduinoSerial.rcv_buf r)) < MAX /\
      no_cr (ArduinoSerial.rcv_buf r)
  end.

(** ** Text *)

Definition comma_free (s : string) : Prop := count_char COMMA s = 0%nat.

Definition err_text_comma_free (inp : LoopInput) : Prop :=
  match err_text inp with Some buf => comma_free buf | None => True end.

Definition digit_char (k : Z) : ascii := ascii_of_N (Z.to_N (48 + k)).

(** ** Command lines *)

(** The parsing rule in the words of the specification: the verb is the
    first blank-delimited token (blank or tab ends it), upper-cased, and
    the argument is what follows the first internal blank, trimmed.  The
    line is taken with its leading blanks already trimmed. *)
Fixpoint first_token (s : string) : string :=
  match s with
  | String c s' => if is_blank c then "" else String c (first_token s')
  | EmptyString => ""
  end.

Fixpoint after_token (s : string) : option string :=
  match s with
  | String c s' => if is_blank c then Some (skip_blanks s') else after_token s'
  | EmptyString => None
  end.

Definition spec_tokenise (line : string) : string * option string :=
  (str_map toupper (first_token line), after_token line).

(** The same split with the space character alone as the delimiter. *)
Fixpoint before_space (s : string) : string :=
  match s with
  | String c s' => if Ascii.eqb c SPACE then "" else String c (before_space s')
  | EmptyString => ""
  end.

Fixpoint after_space (s : string) : option string :=
  match s with
  | String c s' => if Ascii.eqb c SPACE then Some s' else after_space s'
  | EmptyString => None
  end.

Definition known_verb (tmp : string) : bool :=
  String.eqb tmp "PING" || String.eqb tmp "GET" || String.eqb tmp "RESET" ||
  String.eqb tmp "SETC" || String.eqb tmp "SETT" ||
  String.eqb tmp "SETPWR" || String.eqb tmp "SETPOWER".

Definition no_write (t : list event) : Prop := filter is_write t = [].

(** Two device states that differ at most in the command buffer and the
    commanded pump speed: what command processing may change. *)
Definition same_sensors (d d' : Device) : Prop :=
  fgPulses d' = fgPulses d /\ lastPulses d' = lastPulses d /\
  lastPrint d' = lastPrint d /\
  lastTemperature d' = lastTemperature d /\ lastHumidity d' = lastHumidity d.

(** ** The telemetry row *)

Definition rpm_field (t : list event) : list serial_item := nth 28 (row_fields t) [].
Definition pressure_field (t : list event) : list serial_item := nth 29 (row_fields t) [].
Definition temp_field (t : list event) : list serial_item := nth 30 (row_fields t) [].
Definition humidity_field (t : list event) : list serial_item := nth 31 (row_fields t) [].
Definition status_field (t : list event) : list serial_item := nth 33 (row_fields t) [].

(** The pressure word as the sensor sends it: the status is the top two
    bits of the first SPI byte, the raw count the low 14 bits of the two
    bytes read as one 16-bit word. *)
Definition status_bits (byte1 : Z) : Z := byte1 / 64.
Definition raw_count (byte1 byte2 : Z) : Z := (byte1 * 256 + byte2) mod 16384.

(** Columns of the row that print a float parameter as a float: field
    index, parameter id, digits. *)
Definition float_columns : list (nat * Z * Z) :=
  [ (4%nat, 1100, 6); (5%nat, 1101, 6); (7%nat, 1104, 6); (8%nat, 1105, 6);
    (9%nat, 1402, 6); (10%nat, 1010, 3); (11%nat, 1011, 3); (12%nat, 1012, 6);
    (13%nat, 1020, 6); (14%nat, 1021, 6); (15%nat, 1000, 3); (16%nat, 1001, 3);
    (18%nat, 1500, 6); (19%nat, 1600, 6); (20%nat, 1601, 6); (21%nat, 1200, 3);
    (22%nat, 1201, 3); (23%nat, 1202, 3); (24%nat, 1203, 3); (25%nat, 1204, 3);
    (26%nat, 1300, 3); (27%nat, 1301, 3) ].

(** Columns that print a long parameter, and columns that print a float
    parameter converted to [long]. *)
Definition long_columns : list (nat * Z) := [ (0%nat, 105); (1%nat, 106); (2%nat, 107) ].
Definition cast_columns : list (nat * Z) := [ (6%nat, 1102); (17%nat, 1502) ].

Section Vocabulary.
Context {P : Platform} {mc : MeComClient}.

(** What [readFloat] and [readLong] deliver for a parameter of the row
    (neither depends on the device state). *)
Definition float_param (parId : Z) : float :=
  fst (value_of (readFloat parId INST_MON initial)).
Definition long_param (parId : Z) : Z :=
  fst (value_of (readLong parId INST_COMMON initial)).

(** The protocol client reports [ok = false]. *)
Definition float_query_failed (parId inst : Z) : Prop :=
  u8 (fst (MeCom_ParValuef_get DEV_ADDRESS parId inst)) <> 1.
Definition long_query_failed (parId inst : Z) : Prop :=
  u8 (fst (MeCom_ParValuel_get DEV_ADDRESS parId inst)) <> 1.

(** [dp] as a tick taken in state [d] computes it, and the RPM derived
    from it. *)
Definition pulse_delta (d : Device) : Z := u32 (fgPulses d - lastPulses d).

Definition pump_rpm_of (d : Device) : float :=
  f32_div (f32_mul (f32_of_Z (pulse_delta d)) (f32_of_Z 60))
          (f32_of_Z PULSES_PER_REV).

Definition hdc_of (inp : LoopInput) (d : Device) : bool * float * float :=
  readHDCData (wire inp) (lastTemperature d) (lastHumidity d).

(** The row as a list of fields, each the items printed between two
    separators. *)
Definition telemetry_fields (inp : LoopInput) (d : Device)
  : list (list serial_item) :=
  [ [SLong (long_param 105)]; [SLong (long_param 106)]; [SLong (long_param 107)];
    match err_text inp with Some buf => [SStr buf] | None => [] end;
    [SFloat (float_param 1100) 6]; [SFloat (float_param 1101) 6];
    [SLong (float_to_long (float_param 1102))];
    [SFloat (float_param 1104) 6]; [SFloat (float_param 1105) 6];
    [SFloat (float_param 1402) 6];
    [SFloat (float_param 1010) 3]; [SFloat (float_param 1011) 3];
    [SFloat (float_param 1012) 6];
    [SFloat (float_param 1020) 6]; [SFloat (float_param 1021) 6];
    [SFloat (float_param 1000) 3]; [SFloat (float_param 1001) 3];
    [SLong (float_to_long (float_param 1502))]; [SFloat (float_param 1500) 6];
    [SFloat (float_param 1600) 6]; [SFloat (float_param 1601) 6];
    [SFloat (float_param 1200) 3]; [SFloat (float_param 1201) 3];
    [SFloat (float_param 1202) 3]; [SFloat (float_param 1203) 3];
    [SFloat (float_param 1204) 3];
    [SFloat (float_param 1300) 3]; [SFloat (float_param 1301) 3];
    [SFloat (pump_rpm_of d) 0];
    (if snd (readPressure (spi inp)) =? 0
     then [SFloat (fst (readPressure (spi inp))) 1] else [SStr "nan"]);
    [SFloat (snd (fst (hdc_of inp d))) 1];
    [SFloat (snd (hdc_of inp d)) 1];
    [SLong (currentSpeedPercent d)];
    [SLong (snd (readPressure (spi inp)))] ].

(** The state a tick leaves behind. *)
Definition telemetry_state (inp : LoopInput) (d : Device) : Device :=
  let d1 := set_lastPulses (fgPulses d) d in
  if fst (fst (hdc_of inp d))
  then set_cache (snd (fst (hdc_of inp d))) (snd (hdc_of inp d)) d1
  else d1.

(** ** The system as a whole *)

(** Whether a pass of [loop] that starts in [d] emits a row (command
    processing leaves [lastPrint] alone). *)
Definition tick_due (inp : LoopInput) (d : Device) : bool :=
  u32 (u32 (millis inp) - lastPrint d) >=? 1000.

(** The state in which [telemetry] runs inside a pass that ticks. *)
Definition tick_state (inp : LoopInput) (d : Device) : Device :=
  set_lastPrint (u32 (millis inp)) (state_of (pollUsbCommands (usb_in inp) d)).

(** The activity of the system: the tachometer interrupt and passes of
    the main loop. *)
Inductive action : Type :=
| Interrupt
| Pass (inp : LoopInput).

Definition act (a : action) (d : Device) : Device :=
  match a with
  | Interrupt => ISR_fg d
  | Pass inp => state_of (loop inp d)
  end.

Definition run (l : list action) (d : Device) : Device :=
  fold_left (fun d a => act a d) l d.

(** The number of interrupts in a stretch of activity. *)
Fixpoint count_pulses (l : list action) : Z :=
  match l with
  | [] => 0
  | Interrupt :: l' => 1 + count_pulses l'
  | Pass _ :: l' => count_pulses l'
  end.

(** A stretch of activity without a telemetry tick. *)
Fixpoint idle (l : list action) (d : Device) : Prop :=
  match l with
  | [] => True
  | a :: l' =>
      match a with
      | Pass inp => tick_due inp d = false
      | Interrupt => True
      end /\ idle l' (act a d)
  end.

Definition cache (d : Device) : float * float :=
  (lastTemperature d, lastHumidity d).

(** A successful HDC2022 transaction and its converted reading. *)
Definition hdc_reading (w : WireReply) : option (float * float) :=
  match readHDCData w NAN NAN with
  | (true, t, h) => Some (t, h)
  | _ => None
  end.

(** The most recent successful reading along a run, [cur] if none. *)
Fixpoint latest_reading (l : list action) (d : Device) (cur : float * float)
  : float * float :=
  match l with
  | [] => cur
  | a :: l' =>
      let cur' :=
        match a with
        | Pass inp =>
            if tick_due inp d then
              match hdc_reading (wire inp) with Some r => r | None => cur end
            else cur
        | Interrupt => cur
        end in
      latest_reading l' (act a d) cur'
  end.
End Vocabulary.

(** ** Inputs used in the examples *)

(** A platform whose [atof] yields 0 and whose conversion of a float
    without a [long] value yields 0. *)
Definition demo_platform : Platform :=
  mkPlatform (fun _ => f32_of_Z 0) (fun _ => 0).

(** A client whose every call fails, and one whose every call succeeds. *)
Definition silent_client : MeComClient :=
  mkMeCom (fun _ _ _ => (0, f32_of_Z 7)) (fun _ _ _ => (0, 7))
          (fun _ _ _ _ => 0) (fun _ _ _ _ => 0).
Definition healthy_client : MeComClient :=
  mkMeCom (fun _ _ _ => (1, f32_of_Z 7)) (fun _ _ _ => (1, 7))
          (fun _ _ _ _ => 1) (fun _ _ _ _ => 1).

(** A float printer that never prints a comma. *)
Definition demo_printFloat (x : float) (digits : Z) : string :=
  if is_nan x then "nan" else "0.0".

(** A pass at [millis() = 1000] with a valid pressure word of raw count
    1638 and a good HDC2022 reply; one a second later whose pressure
    status is 1 and whose I2C transaction returns 3 bytes. *)
Definition demo_pass : LoopInput :=
  mkLoopInput [] 1000 (6, 102) (mkWire 0 4 (0, 128, 0, 64)) None.
Definition demo_pass_degraded : LoopInput :=
  mkLoopInput [] 2000 (70, 102) (mkWire 0 3 (0, 0, 0, 0)) None.
(** A pass too early for a tick, carrying a command. *)
Definition demo_pass_idle : LoopInput :=
  mkLoopInput (list_ascii_of_string ("ping" ++ String "010" ""))
              1500 (6, 102) (mkWire 0 4 (0, 0, 0, 0)) None.

(** A device whose pulse counter is about to wrap. *)
Definition demo_device : Device :=
  mkDevice 4294967294 40 (f32_of_Z (-40)) (f32_of_Z 0) "" 0 4294967288.

(** A bus on which "OK" and a carriage return arrive between empty
    polls, with a clock that wraps around during the call. *)
Definition demo_read (i : nat) : Z :=
  match i with 1%nat => 79 | 3%nat => 75 | 4%nat => 13 | _ => -1 end.
Definition demo_clock (k : nat) : Z := 4294967290 + Z.of_nat k * 2.

(** A command line with blanks and tabs around a bare verb. *)
Definition demo_bare_setc : string := String TAB (" setc  " ++ String TAB " ").
(** A line whose verb is followed by a tab. *)
Definition demo_tab_line : string := "ping" ++ String TAB "x".
(** A pump command whose argument follows a tab. *)
Definition demo_tab_setpwr : string := "SETPWR" ++ String TAB "55".

(** * Further code and vocabulary *)

(** ** Comparison of floats *)

Definition f32_leb : float -> float -> bool := SFleb.
Definition f32_ltb : float -> float -> bool := SFltb.

(** Structural equality of two floats. *)
Definition float_same (x y : float) : bool :=
  match x, y with
  | S754_zero s, S754_zero s' => Bool.eqb s s'
  | S754_infinity s, S754_infinity s' => Bool.eqb s s'
  | S754_nan, S754_nan => true
  | S754_finite s m e, S754_finite s' m' e' =>
      Bool.eqb s s' && Pos.eqb m m' && Z.eqb e e'
  | _, _ => false
  end.

(** [p] holds of z, z+1, ..., z+n-1; of 0, 1, ..., n-1. *)
Fixpoint all_from (n : nat) (z : Z) (p : Z -> bool) : bool :=
  match n with
  | O => true
  | S n' => p z && all_from n' (z + 1) p
  end.

Definition all_below (n : nat) (p : Z -> bool) : bool := all_from n 0 p.

(** ** Bus transport adapter: the sending side *)

Module RS485.

Definition RS485_MODE_PIN : Z := 4.
Definition RS485_RECEIVE : Z := 0.
Definition RS485_TRANSMIT : Z := 1.

Inductive level : Type := LOW | HIGH.

(** What the adapter does to the outside. *)
Inductive bus_event : Type :=
| DigitalWrite (pin : Z) (l : level)
| SerialWrite (buffer : string)       (* ArduinoSerial->write(buffer) *)
| SerialFlush.                        (* ArduinoSerial->flush() *)

(** The switch has no default case: any other mode does nothing. *)
Definition setRS485Mode (mode : Z) : list bus_event :=
  if mode =? RS485_RECEIVE then [DigitalWrite RS485_MODE_PIN LOW]
  else if mode =? RS485_TRANSMIT then [DigitalWrite RS485_MODE_PIN HIGH]
  else [].

Definition ArduinoSerial_Send (buffer : string) : list bus_event :=
  (setRS485Mode RS485_TRANSMIT ++ [SerialWrite buffer] ++ [SerialFlush] ++
   setRS485Mode RS485_RECEIVE)%list.

(** The level of the direction pin after a trace, starting from [l]. *)
Fixpoint pin_after (l : level) (t : list bus_event) : level :=
  match t with
  | [] => l
  | DigitalWrite pin l' :: t' =>
      pin_after (if pin =? RS485_MODE_PIN then l' else l) t'
  | _ :: t' => pin_after l t'
  end.

(** Every write to the bus happens while the direction pin is HIGH and is
    flushed before the pin goes LOW again. *)
Fixpoint writes_framed (l : level) (flushed : bool) (t : list bus_event) : bool :=
  match t with
  | [] => true
  | DigitalWrite pin l' :: t' =>
      if pin =? RS485_MODE_PIN then
        match l' with
        | LOW => flushed && writes_framed LOW true t'
        | HIGH => writes_framed HIGH flushed t'
        end
      else writes_framed l flushed t'
  | SerialWrite _ :: t' =>
      match l with
      | HIGH => writes_framed l false t'
      | LOW => false
      end
  | SerialFlush :: t' => writes_framed l true t'
  end.

(** The frames written to the bus, in order. *)
Fixpoint frames_of (t : list bus_event) : list string :=
  match t with
  | [] => []
  | SerialWrite b :: t' => b :: frames_of t'
  | _ :: t' => frames_of t'
  end.

End RS485.

(** ** Command lines and replies *)

Definition CR_CHAR : ascii := "013"%char.
Definition LF_CHAR : ascii := "010"%char.

Definition not_cr (c : ascii) : bool := negb (Ascii.eqb c CR_CHAR).

(** A string without carriage return and line feed. *)
Fixpoint one_line (s : string) : bool :=
  match s with
  | EmptyString => true
  | String c s' =>
      negb (Ascii.eqb c CR_CHAR) && negb (Ascii.eqb c LF_CHAR) && one_line s'
  end.

(** The text a trace leaves unterminated on the host link. *)
Fixpoint pending (printFloat : float -> Z -> string) (cur : string)
  (t : list event) : string :=
  match t with
  | [] => cur
  | Serial_print it :: t' => pending printFloat (cur ++ render_item printFloat it) t'
  | Serial_println _ :: t' => pending printFloat "" t'
  | _ :: t' => pending printFloat cur t'
  end.

Definition is_lower (c : ascii) : bool := (97 <=? code c) && (code c <=? 122).

Fixpoint str_forall (p : ascii -> bool) (s : string) : bool :=
  match s with
  | EmptyString => true
  | String c s' => p c && str_forall p s'
  end.

Definition starts_blank (s : string) : bool :=
  match s with
  | String c _ => is_blank c
  | EmptyString => false
  end.

Definition is_get (e : event) : bool :=
  match e with
  | MeCom_getf _ _ | MeCom_getl _ _ => true
  | _ => false
  end.

Definition is_serial (e : event) : bool :=
  match e with
  | Serial_print _ | Serial_println _ => true
  | _ => false
  end.

(** The parameter queries of one tick, in the order of the sketch. *)
Definition telemetry_queries : list event :=
  [ MeCom_getl 105 INST_COMMON; MeCom_getl 106 INST_COMMON;
    MeCom_getl 107 INST_COMMON;
    MeCom_getf 1100 INST_MON; MeCom_getf 1101 INST_MON; MeCom_getf 1102 INST_MON;
    MeCom_getf 1104 INST_MON; MeCom_getf 1105 INST_MON; MeCom_getf 1402 INST_MON;
    MeCom_getf 1010 INST_MON; MeCom_getf 1011 INST_MON; MeCom_getf 1012 INST_MON;
    MeCom_getf 1020 INST_MON; MeCom_getf 1021 INST_MON;
    MeCom_getf 1000 INST_MON; MeCom_getf 1001 INST_MON;
    MeCom_getf 1502 INST_MON; MeCom_getf 1500 INST_MON;
    MeCom_getf 1600 INST_MON; MeCom_getf 1601 INST_MON;
    MeCom_getf 1200 INST_MON; MeCom_getf 1201 INST_MON; MeCom_getf 1202 INST_MON;
    MeCom_getf 1203 INST_MON; MeCom_getf 1204 INST_MON;
    MeCom_getf 1300 INST_MON; MeCom_getf 1301 INST_MON ].

Definition power_field (t : list event) : list serial_item := nth 32 (row_fields t) [].

(** A device whose last tick was shortly before the millisecond counter
    wraps, and two passes after the wrap: 600 ms and 1100 ms later. *)
Definition demo_device_late : Device :=
  mkDevice 10 40 (f32_of_Z (-40)) (f32_of_Z 0) "" 4294966796 4.
Definition demo_pass_early : LoopInput :=
  mkLoopInput [] 100 (6, 102) (mkWire 0 4 (0, 0, 0, 0)) None.
Definition demo_pass_wrapped : LoopInput :=
  mkLoopInput [] 600 (6, 102) (mkWire 0 4 (0, 0, 0, 0)) None.

(** Upper-casing the verb only *)

(** Upper-cases the verb of a line and nothing else: the characters
    after the leading blanks, up to the first space. *)
Fixpoint upcase_head (s : string) : string :=
  match s with
  | String c s' =>
      if Ascii.eqb c SPACE then s else String (toupper c) (upcase_head s')
  | EmptyString => ""
  end.

Fixpoint upcase_verb (s : string) : string :=
  match s with
  | String c s' => if is_blank c then String c (upcase_verb s') else upcase_head s
  | EmptyString => ""
  end.

(** ** Sensor conversions *)

(** The two conversions of [readHDCData] and the ranges checked of their
    results and of the pressure. *)
Definition hdc_temp (tRaw : Z) : float :=
  f32_sub (f32_mul (f32_div (f32_of_Z tRaw) (f32_of_Z 65536)) (f32_of_Z 165))
          (f32_of_Z 40).
Definition hdc_hum (hRaw : Z) : float :=
  f32_mul (f32_div (f32_of_Z hRaw) (f32_of_Z 65536)) (f32_of_Z 100).

Definition temp_in_range (t : float) : bool :=
  f32_leb (f32_of_Z (-40)) t && f32_ltb t (f32_of_Z 125).
Definition hum_in_range (h : float) : bool :=
  f32_leb (f32_of_Z 0) h && f32_ltb h (f32_of_Z 100).
Definition pressure_in_range (p : float) : bool :=
  f32_leb (f32_of_Z (-200)) p && f32_leb p (f32_of_Z 1800).

(** Both HDC conversions of one raw value, with the constants of the
    source named and the common quotient computed once. *)
Definition hdc_in_range (c65536 c165 c40 c100 lo_t hi_t lo_h hi_h : float)
    (raw : Z) : bool :=
  let q := f32_div (f32_of_Z raw) c65536 in
  let t := f32_sub (f32_mul q c165) c40 in
  let h := f32_mul q c100 in
  (f32_leb lo_t t && f32_ltb t hi_t) && (f32_leb lo_h h && f32_ltb h hi_h).

(** The pressure calibration with its constants named. *)
Definition pressure_with (out_min span_p span_out p_min c1000 : float)
    (rawCounts : Z) : float :=
  f32_mul (f32_add (f32_div (f32_mul (f32_sub (f32_of_Z rawCounts) out_min) span_p)
                            span_out) p_min) c1000.

Definition pressure_ok (lo hi p : float) : bool :=
  negb (is_nan p) && (f32_leb lo p && f32_leb p hi).

(** [f] satisfies [ok] at z, ..., z+n-1 and rises at each of these steps,
    [prev] being the value before z. *)
Fixpoint rising_from (n : nat) (z : Z) (prev : float) (f : Z -> float)
    (ok : float -> bool) : bool :=
  match n with
  | O => true
  | S n' =>
      let cur := f z in
      f32_ltb prev cur && ok cur && rising_from n' (z + 1) cur f ok
  end.

(** * Proofs *)

(** ** Bus transport adapter *)

Section ReceiveProofs.
Import ArduinoSerial.
Variables (MAX TIMEOUT : Z) (read millis : nat -> Z).

Local Notation "'recv_loop'" := (ArduinoSerial.recv_loop MAX TIMEOUT read millis).
Local Notation "'in_time'" := (ArduinoSerial.in_time TIMEOUT millis).
Local Notation "'recvData'" :=
  (ArduinoSerial.ArduinoSerial_recvData MAX TIMEOUT read millis).
Local Notation "'stop_ok'" := (stop_ok MAX TIMEOUT millis).

Lemma bytes_read_step i n :
  bytes_read read i (S n) =
  ((if 0 <=? read i then [read i] else []) ++ bytes_read read (S i) n)%list.
Proof.
  unfold bytes_read. cbn [seq List.map filter].
  destruct (0 <=? read i); reflexivity.
Qed.

Lemma bytes_read_silent n : forall i,
  (forall j, (i <= j < i + n)%nat -> read j < 0) -> bytes_read read i n = [].
Proof.
  induction n as [|n IH]; intros i Hs; [reflexivity|].
  rewrite bytes_read_step, IH by (intros j Hj; apply Hs; lia).
  specialize (Hs i ltac:(lia)).
  destruct (0 <=? read i) eqn:E; [apply Z.leb_le in E; lia|reflexivity].
Qed.

Lemma recv_loop_spec fuel : forall i buf r,
  Z.of_nat (List.length buf) < MAX ->
  no_cr buf ->
  recv_loop fuel i buf = Some r ->
  (i < rcv_iters r)%nat /\
  rcv_buf r = (buf ++ bytes_read read i (rcv_iters r - i))%list /\
  (forall j, (i <= j < pred (rcv_iters r))%nat -> in_time j = true) /\
  stop_ok r.
Proof.
  induction fuel as [|fuel IH]; intros i buf r Hlen Hcr Hrun; [discriminate|].
  cbn [ArduinoSerial.recv_loop] in Hrun.
  destruct (read i <? 0) eqn:Hneg.
  - destruct (in_time i) eqn:Ht.
    + destruct (IH _ _ _ Hlen Hcr Hrun) as (Hi & Hb & Hj & Hs).
      repeat split; [lia| |intros j Hjr|exact Hs].
      * replace (rcv_iters r - i)%nat with (S (rcv_iters r - S i)) by lia.
        rewrite bytes_read_step.
        replace (0 <=? read i) with false by (symmetry; apply Z.leb_gt; apply Z.ltb_lt; exact Hneg).
        exact Hb.
      * destruct (Nat.eq_dec j i) as [->|]; [exact Ht|apply Hj; lia].
    + injection Hrun as <-. cbn [rcv_iters rcv_buf rcv_stop].
      repeat split; [lia| |intros j Hjr; cbn in Hjr; lia| | |]; unfold stop_ok; cbn [rcv_iters rcv_buf rcv_stop pred]; auto.
      replace (S i - i)%nat with 1%nat by lia. rewrite bytes_read_step.
      replace (0 <=? read i) with false by (symmetry; apply Z.leb_gt; apply Z.ltb_lt; exact Hneg).
      cbn. now rewrite app_nil_r.
  - assert (Hpos : (0 <=? read i) = true) by (apply Z.leb_le; apply Z.ltb_ge in Hneg; exact Hneg).
    assert (Hone : bytes_read read i 1 = [read i]).
    { rewrite bytes_read_step, Hpos. reflexivity. }
    destruct (read i =? CR) eqn:Heol.
    + injection Hrun as <-. cbn [rcv_iters rcv_buf rcv_stop].
      replace (S i - i)%nat with 1%nat by lia. rewrite Hone.
      repeat split; [lia|intros j Hjr; cbn in Hjr; lia|].
      unfold stop_ok; cbn [rcv_iters rcv_buf rcv_stop pred]. exists buf. apply Z.eqb_eq in Heol. rewrite Heol.
      repeat split; auto. rewrite length_app. cbn. lia.
    + assert (Hcr' : no_cr (buf ++ [read i])).
      { apply Forall_app; split; [exact Hcr|]. constructor; [|constructor].
        apply Z.eqb_neq; exact Heol. }
      destruct (Z.of_nat (List.length (buf ++ [read i])) >=? MAX) eqn:Hfull.
      * injection Hrun as <-. cbn [rcv_iters rcv_buf rcv_stop].
        replace (S i - i)%nat with 1%nat by lia. rewrite Hone.
        repeat split; [lia|intros j Hjr; cbn in Hjr; lia| |exact Hcr']; cbn [rcv_iters rcv_buf rcv_stop pred].
        apply Z.geb_le in Hfull. rewrite length_app in *. cbn in *. lia.
      * assert (Hlen' : Z.of_nat (List.length (buf ++ [read i])) < MAX)
          by (rewrite Z.geb_leb in Hfull; apply Z.leb_gt in Hfull; exact Hfull).
        destruct (in_time i) eqn:Ht.
        -- destruct (IH _ _ _ Hlen' Hcr' Hrun) as (Hi & Hb & Hj & Hs).
           repeat split; [lia| |intros j Hjr|exact Hs].
           ++ replace (rcv_iters r - i)%nat with (S (rcv_iters r - S i)) by lia.
              rewrite bytes_read_step, Hpos, Hb, <- app_assoc. reflexivity.
           ++ destruct (Nat.eq_dec j i) as [->|]; [exact Ht|apply Hj; lia].
        -- injection Hrun as <-. cbn [rcv_iters rcv_buf rcv_stop].
           replace (S i - i)%nat with 1%nat by lia. rewrite Hone.
           repeat split; [lia|intros j Hjr; cbn in Hjr; lia| | |]; unfold stop_ok; cbn [rcv_iters rcv_buf rcv_stop pred]; auto.
Qed.

Lemma recv_loop_terminates n : forall i buf,
  in_time (i + n) = false ->
  exists r, recv_loop (S n) i buf = Some r /\ (rcv_iters r <= S (i + n))%nat.
Proof.
  induction n as [|n IH]; intros i buf Hout.
  - rewrite Nat.add_0_r in Hout. cbn [ArduinoSerial.recv_loop]. rewrite Hout.
    destruct (read i <? 0); [eexists; split; [reflexivity|cbn; lia]|].
    destruct (read i =? CR); [eexists; split; [reflexivity|cbn; lia]|].
    destruct (_ >=? MAX); eexists; (split; [reflexivity|cbn; lia]).
  - assert (Hnext : forall b, exists r, recv_loop (S n) (S i) b = Some r /\
                                        (rcv_iters r <= S (i + S n))%nat).
    { intros b. destruct (IH (S i) b) as (r & Hr & Hle).
      - replace (S i + n)%nat with (i + S n)%nat by lia. exact Hout.
      - exists r. split; [exact Hr|lia]. }
    remember (S n) as m. cbn [ArduinoSerial.recv_loop].
    destruct (read i <? 0).
    + destruct (in_time i); [apply Hnext|eexists; split; [reflexivity|cbn; lia]].
    + destruct (read i =? CR); [eexists; split; [reflexivity|cbn; lia]|].
      destruct (_ >=? MAX); [eexists; split; [reflexivity|cbn; lia]|].
      destruct (in_time i); [apply Hnext|eexists; split; [reflexivity|cbn; lia]].
Qed.


Lemma recv_loop_fuel_mono fuel : forall fuel' i buf r,
  recv_loop fuel i buf = Some r -> (fuel <= fuel')%nat ->
  recv_loop fuel' i buf = Some r.
Proof.
  induction fuel as [|fuel IH]; intros fuel' i buf r Hrun Hle; [discriminate|].
  destruct fuel' as [|fuel']; [lia|].
  cbn [ArduinoSerial.recv_loop] in *.
  destruct (read i <? 0).
  - destruct (in_time i); [apply IH; [exact Hrun|lia]|exact Hrun].
  - destruct (read i =? CR); [exact Hrun|].
    destruct (_ >=? MAX); [exact Hrun|].
    destruct (in_time i); [apply IH; [exact Hrun|lia]|exact Hrun].
Qed.

(** C2.  [ArduinoSerial_recvData] collects the bytes that arrive, in
    order, into the frame and stops at the first loop body in which a
    carriage return is stored (it stays in the frame, as its last byte),
    the frame reaches MEPORT_MAX_RX_BUF_SIZE bytes (it is then exactly
    that long; nothing else is signalled), or the clock check fails
    (elapsed time no longer below MEPORT_SET_AND_QUERY_TIMEOUT).  If the
    timeout has elapsed at the k-th check the call returns after at most
    k+1 bodies, whatever arrives; with no incoming bytes the frame is
    empty, the stop is the timeout, and nothing is handed to
    MePort_ReceiveByte.  A frame is forwarded exactly when it is not
    empty. *)
Theorem recvData_contract (k : nat) :
  1 <= MAX ->
  in_time k = false ->
  exists r,
    (forall fuel, (k < fuel)%nat -> recvData fuel = Some (r, forwarded r)) /\
    (rcv_iters r <= S k)%nat /\
    rcv_buf r = bytes_read read 0 (rcv_iters r) /\
    (forall j, (j < pred (rcv_iters r))%nat -> in_time j = true) /\
    stop_ok r /\
    (forwarded r = None <-> rcv_buf r = []) /\
    (forall b, forwarded r = Some b -> b = rcv_buf r) /\
    ((forall j, (j < rcv_iters r)%nat -> read j < 0) ->
     rcv_buf r = [] /\ rcv_stop r = StopTimeout /\ forwarded r = None).
Proof.
  intros Hmax Hout.
  destruct (recv_loop_terminates k 0%nat [] Hout) as (r & Hrun & Hle).
  assert (H0 : Z.of_nat (List.length (@nil Z)) < MAX) by (cbn; lia).
  destruct (recv_loop_spec _ _ _ _ H0 (Forall_nil _) Hrun)
    as (Hpos & Hbuf & Hin & Hstop).
  cbn [app] in Hbuf. rewrite Nat.sub_0_r in Hbuf.
  assert (Hfwd : forwarded r = None <-> rcv_buf r = []).
  { unfold forwarded. destruct (rcv_buf r); cbn; split; congruence. }
  assert (Hsilent : (forall j, (j < rcv_iters r)%nat -> read j < 0) ->
                    rcv_buf r = [] /\ rcv_stop r = StopTimeout).
  { intros Hs.
    assert (Hnil : rcv_buf r = []).
    { rewrite Hbuf. apply bytes_read_silent. intros j Hj. apply Hs. lia. }
    split; [exact Hnil|].
    unfold stop_ok in Hstop. destruct (rcv_stop r); [exfalso|exfalso|reflexivity].
    - destruct Hstop as (body & Hb & _). rewrite Hnil in Hb.
      destruct body; discriminate.
    - destruct Hstop as (Hl & _). rewrite Hnil in Hl. cbn in Hl. lia. }
  exists r. split; [|split; [|split; [|split; [|split; [|split; [|split]]]]]].
  - intros fuel Hfuel. unfold ArduinoSerial_recvData.
    rewrite (recv_loop_fuel_mono _ fuel _ _ _ Hrun) by lia. reflexivity.
  - cbn in Hle. exact Hle.
  - exact Hbuf.
  - intros j Hj. apply Hin. lia.
  - exact Hstop.
  - exact Hfwd.
  - intros b. unfold forwarded. destruct (0 <? _); congruence.
  - intros Hs. destruct (Hsilent Hs) as (Hnil & Hst).
    repeat split; [exact Hnil|exact Hst|apply Hfwd; exact Hnil].
Qed.

End ReceiveProofs.

(** ** Text and numbers *)
Lemma count_char_app c s t :
  count_char c (s ++ t) = (count_char c s + count_char c t)%nat.
Proof.
  induction s as [|a s IH]; [reflexivity|].
  cbn [append count_char]. rewrite IH. lia.
Qed.

Lemma digit_char_facts k :
  0 <= k < 10 ->
  is_digit (digit_char k) = true /\ code (digit_char k) - 48 = k /\
  isspace (digit_char k) = false /\ is_blank (digit_char k) = false /\
  Ascii.eqb (digit_char k) "-" = false /\ Ascii.eqb (digit_char k) "+" = false /\
  Ascii.eqb (digit_char k) COMMA = false.
Proof.
  intros Hk.
  assert (Hc : k = 0 \/ k = 1 \/ k = 2 \/ k = 3 \/ k = 4 \/ k = 5 \/ k = 6 \/
               k = 7 \/ k = 8 \/ k = 9) by lia.
  repeat (destruct Hc as [->|Hc]; [repeat split; reflexivity|]).
  subst k. repeat split; reflexivity.
Qed.

Lemma printNumber_loop_comma_free fuel : forall n acc,
  comma_free acc -> comma_free (printNumber_loop fuel n acc).
Proof.
  induction fuel as [|fuel IH]; intros n acc Hacc; [exact Hacc|].
  cbn [printNumber_loop]. fold (digit_char (n mod 10)).
  assert (Hd : comma_free (String (digit_char (n mod 10)) acc)).
  { unfold comma_free. cbn [count_char].
    destruct (digit_char_facts (n mod 10)) as (_ & _ & _ & _ & _ & _ & ->);
      [apply Z.mod_pos_bound; lia|exact Hacc]. }
  destruct (n / 10 =? 0); [exact Hd|apply IH; exact Hd].
Qed.

Lemma print_long_comma_free n : comma_free (print_long n).
Proof.
  unfold print_long, printNumber.
  destruct (n <? 0).
  - unfold comma_free. cbn [count_char].
    change (Ascii.eqb "-" COMMA) with false.
    apply printNumber_loop_comma_free. reflexivity.
  - apply printNumber_loop_comma_free. reflexivity.
Qed.

Lemma printNumber_loop_head fuel : forall n acc,
  exists k s', 0 <= k < 10 /\
    printNumber_loop (S fuel) n acc = String (digit_char k) s'.
Proof.
  induction fuel as [|fuel IH]; intros n acc.
  - cbn [printNumber_loop]. exists (n mod 10). eexists.
    split; [apply Z.mod_pos_bound; lia|].
    destruct (n / 10 =? 0); reflexivity.
  - remember (S fuel) as m. cbn [printNumber_loop].
    destruct (n / 10 =? 0).
    + exists (n mod 10). eexists. split; [apply Z.mod_pos_bound; lia|reflexivity].
    + subst m. apply IH.
Qed.

(** Reading back the digits that [printNumber] wrote. *)
Lemma atoi_digits_printNumber fuel : forall n acc v,
  0 <= n < 10 ^ Z.of_nat fuel ->
  exists p, 0 < p /\ n < p /\
    atoi_digits v (printNumber_loop fuel n acc) = atoi_digits (v * p + n) acc.
Proof.
  induction fuel as [|fuel IH]; intros n acc v Hn.
  - cbn in Hn. exists 1. cbn [printNumber_loop].
    repeat split; try lia. f_equal. lia.
  - cbn [printNumber_loop].
    pose proof (Z.mod_pos_bound n 10 ltac:(lia)) as Hm.
    destruct (digit_char_facts (n mod 10) Hm) as (Hd & Hv & _).
    fold (digit_char (n mod 10)).
    destruct (n / 10 =? 0) eqn:Hq.
    + apply Z.eqb_eq in Hq. exists 10.
      assert (n = n mod 10) by (rewrite (Z.div_mod n 10) at 1 by lia; lia).
      repeat split; try lia.
      cbn [atoi_digits]. rewrite Hd, Hv. f_equal. lia.
    + assert (Hn' : 0 <= n / 10 < 10 ^ Z.of_nat fuel).
      { split; [apply Z.div_pos; lia|].
        apply Z.div_lt_upper_bound; [lia|].
        rewrite Nat2Z.inj_succ, Z.pow_succ_r in Hn by lia. lia. }
      destruct (IH (n / 10) (String (digit_char (n mod 10)) acc) v Hn')
        as (p & Hp & Hlt & Heq).
      exists (p * 10). rewrite Heq. cbn [atoi_digits]. rewrite Hd, Hv.
      pose proof (Z.div_mod n 10 ltac:(lia)) as Hdm.
      repeat split; try lia. f_equal. lia.
Qed.

Lemma atoi_digits_printNumber0 n :
  0 <= n < 2 ^ 32 -> atoi_digits 0 (printNumber n) = n.
Proof.
  intros Hn. unfold printNumber.
  destruct (atoi_digits_printNumber 32 n "" 0) as (p & _ & _ & Heq).
  - split; [lia|]. apply Z.lt_le_trans with (2 ^ 32); [lia|].
    vm_compute. discriminate.
  - rewrite Heq. cbn [atoi_digits]. lia.
Qed.

Lemma s16_id n : - 2 ^ 15 <= n < 2 ^ 15 -> s16 n = n.
Proof.
  intros Hn. unfold s16. rewrite Z.mod_small; lia.
Qed.

(** [atoi] reads back what [print_long] writes, on the range of [int]. *)
Lemma atoi_print_long n :
  - 2 ^ 15 <= n < 2 ^ 15 -> atoi (print_long n) = n.
Proof.
  intros Hn. unfold print_long.
  destruct (n <? 0) eqn:Hneg.
  - apply Z.ltb_lt in Hneg. unfold atoi. cbn [atoi_skip].
    change (isspace "-") with false. cbn iota.
    change (Ascii.eqb "-" "-") with true. cbn iota.
    rewrite atoi_digits_printNumber0 by lia. rewrite s16_id; lia.
  - apply Z.ltb_ge in Hneg. unfold atoi.
    destruct (printNumber_loop_head 31 n "") as (k & s' & Hk & Hs).
    pose proof (atoi_digits_printNumber0 n ltac:(lia)) as Hback.
    unfold printNumber in *. rewrite Hs in *.
    destruct (digit_char_facts k Hk) as (_ & _ & Hsp & _ & Hm & Hp & _).
    cbn [atoi_skip]. rewrite Hsp, Hm, Hp, Hback. apply s16_id. lia.
Qed.

(** Beyond the range of [int] the value is reduced to 16 bits. *)
Lemma atoi_print_long_s16 n :
  - 2 ^ 31 <= n < 2 ^ 31 -> atoi (print_long n) = s16 n.
Proof.
  intros Hn. unfold print_long.
  destruct (n <? 0) eqn:Hneg.
  - apply Z.ltb_lt in Hneg. unfold atoi. cbn [atoi_skip].
    change (isspace "-") with false. cbn iota.
    change (Ascii.eqb "-" "-") with true. cbn iota.
    rewrite atoi_digits_printNumber0 by lia. f_equal. lia.
  - apply Z.ltb_ge in Hneg. unfold atoi.
    destruct (printNumber_loop_head 31 n "") as (k & s' & Hk & Hs).
    pose proof (atoi_digits_printNumber0 n ltac:(lia)) as Hback.
    unfold printNumber in *. rewrite Hs in *.
    destruct (digit_char_facts k Hk) as (_ & _ & Hsp & _ & Hm & Hp & _).
    cbn [atoi_skip]. rewrite Hsp, Hm, Hp, Hback. reflexivity.
Qed.

Lemma print_long_not_blank n :
  exists c s', print_long n = String c s' /\ is_blank c = false.
Proof.
  unfold print_long. destruct (n <? 0).
  - eexists _, _. split; reflexivity.
  - destruct (printNumber_loop_head 31 n "") as (k & s' & Hk & Hs).
    unfold printNumber. rewrite Hs. eexists _, _. split; [reflexivity|].
    apply (digit_char_facts k Hk).
Qed.

Lemma constrain_range n lo hi : lo <= hi -> lo <= constrain n lo hi <= hi.
Proof.
  intros H. unfold constrain.
  destruct (n <? lo) eqn:E1; [lia|]. apply Z.ltb_ge in E1.
  destruct (n >? hi) eqn:E2; [lia|].
  rewrite Z.gtb_ltb in E2. apply Z.ltb_ge in E2. lia.
Qed.

Lemma constrain_idem n lo hi :
  lo <= hi -> constrain (constrain n lo hi) lo hi = constrain n lo hi.
Proof.
  intros H. pose proof (constrain_range n lo hi H) as Hr.
  unfold constrain at 1.
  destruct (_ <? lo) eqn:E1; [apply Z.ltb_lt in E1; lia|].
  destruct (_ >? hi) eqn:E2; [|reflexivity].
  rewrite Z.gtb_ltb in E2. apply Z.ltb_lt in E2. lia.
Qed.

(** ** Bytes and bits *)

Lemma u8_range x : 0 <= u8 x < 256.
Proof. unfold u8. pose proof (Z.mod_pos_bound x (2 ^ 8)). lia. Qed.

(** A byte below bit 8 and a value shifted past it share no bit. *)
Lemma land_low_high a b :
  0 <= a < 256 -> Z.land a (Z.shiftl b 8) = 0.
Proof.
  intros Ha. apply Z.bits_inj'. intros n Hn.
  rewrite Z.land_spec, Z.bits_0.
  destruct (Z.ltb_spec n 8) as [Hlt|Hge].
  - rewrite (Z.shiftl_spec_low b 8 n Hlt). apply andb_false_r.
  - replace a with (a mod 2 ^ 8) by (apply Z.mod_small; lia).
    rewrite Z.mod_pow2_bits_high by lia. reflexivity.
Qed.

Lemma lor_low_high a b :
  0 <= a < 256 -> Z.lor a (Z.shiftl b 8) = a + 256 * b.
Proof.
  intros Ha. pose proof (land_low_high a b Ha) as Hl.
  rewrite <- (Z.lxor_lor _ _ Hl), <- (Z.add_nocarry_lxor _ _ Hl).
  rewrite Z.shiftl_mul_pow2 by lia. lia.
Qed.

(** The bit expressions of [readPressure] on two bytes. *)
Lemma pressure_word byte1 byte2 :
  0 <= byte1 < 256 -> 0 <= byte2 < 256 ->
  status_of byte1 = byte1 / 64 /\
  rawCounts_of byte1 byte2 = byte1 mod 64 * 256 + byte2.
Proof.
  intros H1 H2. unfold status_of, rawCounts_of.
  pose proof (Z.mod_pos_bound byte1 64 ltac:(lia)) as Hm.
  split.
  - rewrite Z.shiftr_div_pow2 by lia.
    change 3 with (Z.ones 2). rewrite Z.land_ones by lia.
    change (2 ^ 6) with 64. change (2 ^ 2) with 4.
    apply Z.mod_small. split; [apply Z.div_pos; lia|].
    apply Z.div_lt_upper_bound; lia.
  - change 63 with (Z.ones 6). rewrite Z.land_ones by lia.
    change (2 ^ 6) with 64.
    rewrite Z.lor_comm, (lor_low_high byte2 (byte1 mod 64) H2).
    unfold u16. rewrite Z.mod_small; lia.
Qed.

(** The same in the vocabulary of the pressure word, for whatever
    [SPI.transfer] returned. *)
Lemma pressure_bits byte1 byte2 :
  status_of (u8 byte1) = status_bits (u8 byte1) /\
  rawCounts_of (u8 byte1) (u8 byte2) = raw_count (u8 byte1) (u8 byte2) /\
  0 <= status_bits (u8 byte1) <= 3.
Proof.
  pose proof (u8_range byte1) as H1. pose proof (u8_range byte2) as H2.
  destruct (pressure_word _ _ H1 H2) as [Hs Hr].
  unfold status_bits, raw_count. split; [exact Hs|]. split.
  - rewrite Hr.
    pose proof (Z.mod_pos_bound (u8 byte1) 64 ltac:(lia)) as Hm.
    pose proof (Z.div_mod (u8 byte1) 64 ltac:(lia)) as Hdm.
    apply (Z.mod_unique _ _ (u8 byte1 / 64)); lia.
  - split; [apply Z.div_pos; lia|].
    assert (u8 byte1 / 64 < 4) by (apply Z.div_lt_upper_bound; lia). lia.
Qed.

(** ** Command dispatcher *)

Lemma str_take_all n : forall s, (String.length s <= n)%nat -> str_take n s = s.
Proof.
  induction n as [|n IH]; intros [|c s] Hlen; cbn in *; try reflexivity; try lia.
  rewrite IH by lia. reflexivity.
Qed.

Lemma strchr_space s :
  match strchr s SPACE with
  | Some i => str_take i s = before_space s /\ after_space s = Some (str_drop (S i) s)
  | None => before_space s = s /\ after_space s = None
  end.
Proof.
  induction s as [|c s IH]; cbn [strchr before_space after_space]; [auto|].
  destruct (Ascii.eqb c SPACE); [cbn; auto|].
  destruct (strchr s SPACE) as [i|]; destruct IH as [IH1 IH2]; cbn [str_take str_drop].
  - rewrite IH1. auto.
  - rewrite IH1. auto.
Qed.

Section DispatcherProofs.
Context {P : Platform} {mc : MeComClient}.

(** On a line that fits the command buffer, [tokenise] splits at the
    first blank character. *)
Lemma tokenise_space line :
  (String.length line <= 127)%nat ->
  tokenise line =
  (str_map toupper (before_space line),
   match after_space line with Some r => Some (skip_blanks r) | None => None end).
Proof.
  intros Hlen. unfold tokenise. rewrite str_take_all by exact Hlen.
  pose proof (strchr_space line) as H.
  destruct (strchr line SPACE) as [i|]; destruct H as [H1 H2]; rewrite H2.
  - rewrite H1. reflexivity.
  - rewrite H1. reflexivity.
Qed.

Lemma tab_free_token s :
  count_char TAB (before_space s) = 0%nat ->
  first_token s = before_space s /\
  after_token s = match after_space s with Some r => Some (skip_blanks r) | None => None end.
Proof.
  induction s as [|c s IH]; cbn [first_token after_token before_space after_space]; [auto|].
  unfold is_blank. destruct (Ascii.eqb c SPACE) eqn:Es; cbn [orb]; [auto|].
  cbn [count_char]. destruct (Ascii.eqb c TAB) eqn:Et; [discriminate|].
  cbn [Nat.add]. intros H. destruct (IH H) as [IH1 IH2]. rewrite IH1, IH2. auto.
Qed.

Lemma unknown_reply line d :
  skip_blanks line <> "" ->
  known_verb (fst (tokenise (skip_blanks line))) = false ->
  handleCommandLine line d =
  (tt, d, [Serial_print (SStr "ERR unknown_cmd ");
           Serial_println (SStr (fst (tokenise (skip_blanks line))))]).
Proof.
  intros Hne Hk. unfold handleCommandLine.
  destruct (String.eqb_spec (skip_blanks line) "") as [E|_]; [contradiction|].
  destruct (tokenise (skip_blanks line)) as [tmp arg]. cbn [fst] in *.
  unfold known_verb in Hk.
  repeat (apply orb_false_elim in Hk; destruct Hk as [Hk ?]).
  repeat match goal with H : String.eqb _ _ = false |- _ => rewrite H; clear H end.
  reflexivity.
Qed.

(** The run of the pump branch, for any line the tokeniser reads as a
    pump command with a non-empty argument. *)
Lemma setpwr_run line d arg :
  let tok := tokenise (skip_blanks line) in
  fst tok = "SETPWR" \/ fst tok = "SETPOWER" ->
  snd tok = Some arg -> arg <> "" ->
  handleCommandLine line d =
  (tt, set_currentSpeedPercent (constrain (atoi arg) 0 100) d,
   [AnalogWrite pumpPwmPin (s16 (map (constrain (atoi arg) 0 100) 0 100 255 0));
    Serial_print (SStr "OK SETPWR ");
    Serial_println (SLong (constrain (atoi arg) 0 100))]).
Proof.
  intros tok Hverb Harg Hne. subst tok. unfold handleCommandLine.
  destruct (String.eqb_spec (skip_blanks line) "") as [E|_].
  { rewrite E in Hverb. cbn in Hverb. destruct Hverb; discriminate. }
  destruct (tokenise (skip_blanks line)) as [tmp a]. cbn [fst snd] in *. subst a.
  assert (Hm : missing (Some arg) = false) by (destruct arg; [contradiction|reflexivity]).
  destruct Hverb as [-> | ->]; cbn -[atoi constrain map s16 missing]; rewrite Hm;
    cbv [bind modify get setPumpSpeed emit print println ret app
         set_currentSpeedPercent currentSpeedPercent arg_text];
    rewrite constrain_idem by lia; reflexivity.
Qed.

(** The same for the line made of the verb, one space and the decimal
    text of [n]. *)
Lemma setpwr_text_run n cmd d :
  - 2 ^ 31 <= n < 2 ^ 31 ->
  cmd = "SETPWR" \/ cmd = "SETPOWER" ->
  handleCommandLine (cmd ++ " " ++ print_long n) d =
  (tt, set_currentSpeedPercent (constrain (s16 n) 0 100) d,
   [AnalogWrite pumpPwmPin (s16 (map (constrain (s16 n) 0 100) 0 100 255 0));
    Serial_print (SStr "OK SETPWR ");
    Serial_println (SLong (constrain (s16 n) 0 100))]).
Proof.
  intros Hn Hcmd.
  destruct (print_long_not_blank n) as (c & s' & Hs & Hc).
  rewrite <- (atoi_print_long_s16 n Hn).
  apply setpwr_run.
  - destruct Hcmd as [-> | ->]; [left|right]; reflexivity.
  - destruct Hcmd as [-> | ->]; cbn -[print_long]; rewrite Hs;
      cbn [skip_blanks]; rewrite Hc; reflexivity.
  - rewrite Hs. discriminate.
Qed.

(** C3.  On every line that the dispatcher reads as a SETC, SETT, SETPWR
    or SETPOWER command and whose argument is absent ([arg] null) or
    empty once its leading blanks are skipped, the whole output is the
    one line [ERR SETC missing_value], [ERR SETT missing_value] or
    [ERR SETPWR missing_value]: no parameter write is issued, the pump
    output is not written, and the device state is unchanged. *)
Theorem missing_value_reply line d :
  let tok := tokenise (skip_blanks line) in
  let r := handleCommandLine line d in
  missing (snd tok) = true ->
  (fst tok = "SETC" ->
   output_of r = [Serial_println (SStr "ERR SETC missing_value")]) /\
  (fst tok = "SETT" ->
   output_of r = [Serial_println (SStr "ERR SETT missing_value")]) /\
  (fst tok = "SETPWR" \/ fst tok = "SETPOWER" ->
   output_of r = [Serial_println (SStr "ERR SETPWR missing_value")]) /\
  (fst tok = "SETC" \/ fst tok = "SETT" \/ fst tok = "SETPWR" \/ fst tok = "SETPOWER" ->
   no_write (output_of r) /\ state_of r = d).
Proof.
  intros tok r Hm. subst tok r. unfold handleCommandLine.
  destruct (String.eqb_spec (skip_blanks line) "") as [E|_].
  { rewrite E. cbn. split; [|split; [|split]]; intros Hv;
      repeat match goal with Hd : _ \/ _ |- _ => destruct Hd end; discriminate. }
  destruct (tokenise (skip_blanks line)) as [tmp arg]. cbn [fst snd] in *.
  split; [|split; [|split]]; intros Hv;
    repeat match goal with Hd : _ \/ _ |- _ => destruct Hd end; subst tmp;
    cbn -[missing]; rewrite Hm; try split; reflexivity.
Qed.

(** C4, in the form that holds of the code.  On every line that the
    dispatcher reads as a SETPWR or SETPOWER command with a non-empty
    argument, the [int] n that [atoi] reads from the argument is clamped
    to 0..100 and stored as the commanded pump speed, the pump output is
    driven with the inverse duty value of the clamped speed, and the
    reply is the one line [OK SETPWR <stored>] with the stored (clamped)
    value in decimal.  When the verb is followed by a space and the
    decimal text of an integer n in the range of the 16-bit [int], the
    stored speed is n clamped to 0..100.  An integer beyond that range
    is reduced to 16 bits by [atoi] before it is clamped. *)
Theorem setpwr_clamps :
  (forall line d arg,
     let tok := tokenise (skip_blanks line) in
     let r := handleCommandLine line d in
     let n := atoi arg in
     fst tok = "SETPWR" \/ fst tok = "SETPOWER" ->
     snd tok = Some arg -> arg <> "" ->
     state_of r = set_currentSpeedPercent (constrain n 0 100) d /\
     0 <= currentSpeedPercent (state_of r) <= 100 /\
     output_of r =
       [AnalogWrite pumpPwmPin (s16 (map (constrain n 0 100) 0 100 255 0));
        Serial_print (SStr "OK SETPWR ");
        Serial_println (SLong (constrain n 0 100))] /\
     forall printFloat,
       serial_lines printFloat (output_of r) =
       ["OK SETPWR " ++ print_long (constrain n 0 100)]) /\
  (forall n cmd d,
     - 2 ^ 15 <= n < 2 ^ 15 ->
     cmd = "SETPWR" \/ cmd = "SETPOWER" ->
     let r := handleCommandLine (cmd ++ " " ++ print_long n) d in
     currentSpeedPercent (state_of r) = constrain n 0 100 /\
     forall printFloat,
       serial_lines printFloat (output_of r) =
       ["OK SETPWR " ++ print_long (constrain n 0 100)]) /\
  (forall n cmd d,
     - 2 ^ 31 <= n < 2 ^ 31 ->
     cmd = "SETPWR" \/ cmd = "SETPOWER" ->
     let r := handleCommandLine (cmd ++ " " ++ print_long n) d in
     currentSpeedPercent (state_of r) = constrain (s16 n) 0 100 /\
     forall printFloat,
       serial_lines printFloat (output_of r) =
       ["OK SETPWR " ++ print_long (constrain (s16 n) 0 100)]).
Proof.
  split; [|split].
  - intros line d arg tok r n Hverb Harg Hne. subst r.
    rewrite (setpwr_run line d arg Hverb Harg Hne). fold n.
    cbn [state_of output_of fst snd].
    split; [reflexivity|]. split; [apply constrain_range; lia|].
    split; [reflexivity|]. intros pf. reflexivity.
  - intros n cmd d Hn Hcmd r. subst r.
    rewrite (setpwr_text_run n cmd d ltac:(lia) Hcmd), (s16_id n Hn).
    cbn [state_of output_of fst snd].
    split; [reflexivity|]. intros pf. reflexivity.
  - intros n cmd d Hn Hcmd r. subst r.
    rewrite (setpwr_text_run n cmd d Hn Hcmd).
    cbn [state_of output_of fst snd].
    split; [reflexivity|]. intros pf. reflexivity.
Qed.

(** C8, in the form that holds of the code.  On every line that fits the 127-character command
    buffer once its leading blanks (space, tab) are skipped, the verb is
    the text before the first space character, upper-cased (a tab does
    not end the verb), and the argument is the text of the original line
    after that space with its leading blanks skipped, absent if there is
    no space.  Where no tab occurs before the first space this is the
    blank-delimited split of the specification.  For every non-empty
    line whose verb is not recognised the whole output is the one line
    [ERR unknown_cmd <VERB>] with the upper-cased verb, and the device
    state is unchanged; a line of blanks only gets no reply. *)
Theorem dispatcher_parsing line d :
  let l := skip_blanks line in
  (String.length l <= 127)%nat ->
  let verb := str_map toupper (before_space l) in
  tokenise l =
    (verb, match after_space l with Some r => Some (skip_blanks r) | None => None end) /\
  (count_char TAB (before_space l) = 0%nat -> tokenise l = spec_tokenise l) /\
  (l = "" -> handleCommandLine line d = (tt, d, [])) /\
  (l <> "" -> known_verb verb = false ->
   handleCommandLine line d =
     (tt, d, [Serial_print (SStr "ERR unknown_cmd "); Serial_println (SStr verb)]) /\
   forall printFloat,
     serial_lines printFloat (output_of (handleCommandLine line d)) =
     ["ERR unknown_cmd " ++ verb]).
Proof.
  intros l Hlen verb.
  pose proof (tokenise_space l Hlen) as Htok.
  split; [exact Htok|]. split; [|split].
  - intros Htab. rewrite Htok. unfold spec_tokenise.
    destruct (tab_free_token l Htab) as [-> ->]. reflexivity.
  - intros He. unfold handleCommandLine. fold l. rewrite He. reflexivity.
  - intros Hne Hk.
    assert (Hrun : handleCommandLine line d =
      (tt, d, [Serial_print (SStr "ERR unknown_cmd "); Serial_println (SStr verb)])).
    { rewrite (unknown_reply line d Hne); fold l; rewrite Htok; [reflexivity|exact Hk]. }
    split; [exact Hrun|]. intros pf. rewrite Hrun. reflexivity.
Qed.

End DispatcherProofs.

(** ** Telemetry and the main loop *)

Section TelemetryProofs.
Context {P : Platform} {mc : MeComClient}.

(** Runs [telemetry] symbolically: one case per outcome of the pressure
    status test, the HDC2022 transaction and the error text. *)
Ltac run_telemetry inp d :=
  unfold telemetry, printErrorTextField;
  unfold bind at 1; unfold get at 1; cbv beta iota zeta;
  unfold bind at 1; unfold modify at 1; cbv beta iota zeta;
  unfold telemetry_fields, telemetry_state, hdc_of;
  destruct (readPressure (spi inp)) as [pressure_mb pstat];
  destruct (readHDCData (wire inp) (lastTemperature d) (lastHumidity d))
    as [[hOk temperature] humidity];
  destruct hOk; destruct (err_text inp); cbn [fst snd];
  destruct (pstat =? 0).

Lemma telemetry_row inp d :
  row_fields (output_of (telemetry inp d)) = telemetry_fields inp d.
Proof.
  run_telemetry inp d; reflexivity.
Qed.

Lemma telemetry_final inp d :
  state_of (telemetry inp d) = telemetry_state inp d.
Proof.
  run_telemetry inp d; reflexivity.
Qed.

Lemma telemetry_one_line printFloat inp d :
  exists row, serial_lines printFloat (output_of (telemetry inp d)) = [row].
Proof.
  unfold telemetry, printErrorTextField.
  unfold bind at 1; unfold get at 1; cbv beta iota zeta.
  unfold bind at 1; unfold modify at 1; cbv beta iota zeta.
  destruct (readPressure (spi inp)) as [pressure_mb pstat].
  destruct (readHDCData (wire inp) (lastTemperature d) (lastHumidity d))
    as [[hOk temperature] humidity].
  destruct hOk; destruct (err_text inp); destruct (pstat =? 0).
  all: cbv [bind emit print println comma ret get modify readFloat readLong
            output_of snd fst app serial_lines serial_lines_from render_item].
  all: eexists; reflexivity.
Qed.

Lemma telemetry_line_fields printFloat inp d :
  (forall x digits, comma_free (printFloat x digits)) ->
  err_text_comma_free inp ->
  exists row, serial_lines printFloat (output_of (telemetry inp d)) = [row] /\
              csv_field_count row = 34%nat.
Proof.
  intros Hpf Herr. unfold err_text_comma_free in Herr.
  unfold telemetry, printErrorTextField.
  unfold bind at 1; unfold get at 1; cbv beta iota zeta.
  unfold bind at 1; unfold modify at 1; cbv beta iota zeta.
  destruct (readPressure (spi inp)) as [pressure_mb pstat].
  destruct (readHDCData (wire inp) (lastTemperature d) (lastHumidity d))
    as [[hOk temperature] humidity].
  destruct hOk; destruct (err_text inp); destruct (pstat =? 0).
  all: cbv [bind emit print println comma ret get modify readFloat readLong
            output_of snd fst app serial_lines serial_lines_from render_item].
  all: eexists; split; [reflexivity|].
  all: unfold csv_field_count; f_equal.
  all: repeat rewrite count_char_app.
  all: repeat rewrite print_long_comma_free.
  all: repeat rewrite Hpf.
  all: try rewrite Herr.
  all: reflexivity.
Qed.

(** *** Command processing leaves the sensors' state alone *)

Lemma same_sensors_refl d : same_sensors d d.
Proof. repeat split. Qed.

Lemma same_sensors_trans d1 d2 d3 :
  same_sensors d1 d2 -> same_sensors d2 d3 -> same_sensors d1 d3.
Proof.
  unfold same_sensors. intros (A1 & A2 & A3 & A4 & A5) (B1 & B2 & B3 & B4 & B5).
  repeat split; congruence.
Qed.

Lemma handleCommandLine_frame line d :
  same_sensors d (state_of (handleCommandLine line d)) /\
  cmdBuf (state_of (handleCommandLine line d)) = cmdBuf d.
Proof.
  unfold handleCommandLine.
  destruct (String.eqb (skip_blanks line) ""); [repeat split|].
  destruct (tokenise (skip_blanks line)) as [tmp arg].
  repeat match goal with
         | |- context [if ?b then _ else _] => destruct b
         end;
    cbv [bind writeLong writeFloat emit ret println print modify get
         setPumpSpeed state_of fst snd];
    repeat match goal with
           | |- context [if ?b then _ else _] => destruct b
           end; repeat split.
Qed.

Lemma pollUsbCommands_frame input : forall d,
  same_sensors d (state_of (pollUsbCommands input d)).
Proof.
  induction input as [|c rest IH]; intros d; [apply same_sensors_refl|].
  cbn [pollUsbCommands].
  destruct (Ascii.eqb c "013"); [apply IH|].
  destruct (Ascii.eqb c "010").
  - unfold bind at 1. unfold get at 1. cbv beta iota zeta.
    unfold bind at 1.
    destruct (handleCommandLine_frame (c_str (cmdBuf d)) d) as [Hs _].
    destruct (handleCommandLine (c_str (cmdBuf d)) d) as [[u d1] o1].
    cbn [state_of fst snd] in Hs.
    unfold bind at 1. unfold modify at 1. cbv beta iota zeta.
    specialize (IH (set_cmdBuf "" d1)).
    destruct (pollUsbCommands rest (set_cmdBuf "" d1)) as [[u2 d2] o2].
    cbn [state_of fst snd] in *.
    eapply same_sensors_trans; [exact Hs|].
    eapply same_sensors_trans; [|exact IH]. repeat split.
  - unfold bind at 1. unfold get at 1. cbv beta iota zeta.
    unfold bind at 1.
    destruct (String.length (cmdBuf d) <? 127)%nat.
    + unfold modify at 1. cbv beta iota zeta.
      specialize (IH (set_cmdBuf (cmdBuf d ++ String c "") d)).
      destruct (pollUsbCommands rest _) as [[u2 d2] o2].
      cbn [state_of fst snd] in *.
      eapply same_sensors_trans; [|exact IH]. repeat split.
    + unfold ret at 1. cbv beta iota zeta.
      specialize (IH d).
      destruct (pollUsbCommands rest d) as [[u2 d2] o2].
      cbn [state_of fst snd] in *. exact IH.
Qed.

(** *** One pass of the loop *)

Lemma loop_run inp d :
  let r1 := pollUsbCommands (usb_in inp) d in
  loop inp d =
  if tick_due inp d then
    let r2 := telemetry inp (set_lastPrint (u32 (millis inp)) (state_of r1)) in
    (tt, state_of r2, (output_of r1 ++ output_of r2)%list)
  else (tt, state_of r1, (output_of r1 ++ [])%list).
Proof.
  intros r1. subst r1. unfold loop, tick_due.
  pose proof (pollUsbCommands_frame (usb_in inp) d) as (_ & _ & Hlp & _).
  unfold bind at 1.
  destruct (pollUsbCommands (usb_in inp) d) as [[u d1] o1].
  cbn [state_of output_of fst snd] in *.
  unfold bind at 1. unfold get at 1. cbv beta iota zeta. rewrite Hlp.
  destruct (_ >=? 1000).
  - unfold bind at 1. unfold modify at 1. cbv beta iota zeta.
    destruct (telemetry inp _) as [[u2 d2] o2]. destruct u2. reflexivity.
  - reflexivity.
Qed.

Lemma readHDCData_cases w t h :
  readHDCData w t h =
  match hdc_reading w with
  | Some (t', h') => (true, t', h')
  | None => (false, t, h)
  end.
Proof.
  unfold hdc_reading, readHDCData.
  destruct (negb (endTransmission w =? 0)); [reflexivity|].
  destruct (negb (u8 (requestFrom w) =? 4)); [reflexivity|].
  destruct (wire_data w) as [[[b0 b1] b2] b3]. reflexivity.
Qed.

Lemma hdc_reading_fails w :
  hdc_reading w = None <-> (endTransmission w <> 0 \/ u8 (requestFrom w) <> 4).
Proof.
  unfold hdc_reading, readHDCData.
  destruct (Z.eqb_spec (endTransmission w) 0) as [E|E]; cbn [negb].
  - destruct (Z.eqb_spec (u8 (requestFrom w)) 4) as [G|G]; cbn [negb].
    + destruct (wire_data w) as [[[b0 b1] b2] b3].
      split; [discriminate|]. intros [H|H]; contradiction.
    + split; auto.
  - split; auto.
Qed.

Lemma telemetry_cache inp d :
  cache (state_of (telemetry inp d)) =
  match hdc_reading (wire inp) with Some r => r | None => cache d end.
Proof.
  rewrite telemetry_final. unfold telemetry_state, hdc_of.
  rewrite readHDCData_cases.
  destruct (hdc_reading (wire inp)) as [[t h]|]; reflexivity.
Qed.

Lemma act_cache a d :
  cache (act a d) =
  match a with
  | Pass inp =>
      if tick_due inp d then
        match hdc_reading (wire inp) with Some r => r | None => cache d end
      else cache d
  | Interrupt => cache d
  end.
Proof.
  destruct a as [|inp]; [reflexivity|].
  cbn [act]. pose proof (loop_run inp d) as Hrun. cbv zeta in Hrun. rewrite Hrun.
  pose proof (pollUsbCommands_frame (usb_in inp) d) as (_ & _ & _ & Ht & Hh).
  destruct (tick_due inp d); cbv zeta; cbn [state_of fst snd].
  - change (snd (fst (telemetry inp ?x))) with (state_of (telemetry inp x)).
    rewrite telemetry_cache.
    destruct (hdc_reading (wire inp)); [reflexivity|].
    unfold cache. cbn. f_equal; assumption.
  - unfold cache. f_equal; assumption.
Qed.

Lemma run_cache l : forall d,
  cache (run l d) = latest_reading l d (cache d).
Proof.
  induction l as [|a l IH]; intros d; [reflexivity|].
  cbn [run fold_left latest_reading]. fold (run l (act a d)).
  rewrite IH, act_cache. destruct a; reflexivity.
Qed.

(** *** The pulse counter *)

Lemma tick_state_counters inp d :
  fgPulses (tick_state inp d) = fgPulses d /\
  lastPulses (tick_state inp d) = lastPulses d.
Proof.
  unfold tick_state.
  pose proof (pollUsbCommands_frame (usb_in inp) d) as (H1 & H2 & _).
  split; assumption.
Qed.

Lemma act_counters a d :
  match a with
  | Interrupt =>
      fgPulses (act a d) = u32 (fgPulses d + 1) /\ lastPulses (act a d) = lastPulses d
  | Pass inp =>
      fgPulses (act a d) = fgPulses d /\
      lastPulses (act a d) = if tick_due inp d then fgPulses d else lastPulses d
  end.
Proof.
  destruct a as [|inp]; [split; reflexivity|].
  cbn [act]. pose proof (loop_run inp d) as Hrun. cbv zeta in Hrun. rewrite Hrun.
  pose proof (pollUsbCommands_frame (usb_in inp) d) as (H1 & H2 & _).
  destruct (tick_due inp d); cbv zeta; cbn [state_of fst snd].
  - change (snd (fst (telemetry inp ?x))) with (state_of (telemetry inp x)).
    rewrite telemetry_final. unfold telemetry_state.
    destruct (fst (fst (hdc_of inp _))); cbn; auto.
  - auto.
Qed.

Lemma idle_counters l : forall d,
  idle l d ->
  lastPulses (run l d) = lastPulses d /\
  u32 (fgPulses (run l d)) = u32 (fgPulses d + count_pulses l).
Proof.
  induction l as [|a l IH]; intros d Hidle.
  - cbn. rewrite Z.add_0_r. auto.
  - cbn [idle] in Hidle. destruct Hidle as [Ha Hl].
    cbn [run fold_left]. fold (run l (act a d)).
    destruct (IH _ Hl) as [IH1 IH2]. rewrite IH1, IH2.
    pose proof (act_counters a d) as Hc.
    destruct a as [|inp]; cbn [count_pulses]; destruct Hc as [Hf Hp].
    + rewrite Hf, Hp. split; [reflexivity|].
      unfold u32. rewrite Zplus_mod_idemp_l. f_equal. lia.
    + rewrite Ha in Hp. rewrite Hf, Hp. auto.
Qed.

(** *** Failed parameter queries *)

Lemma readFloat_failed parId inst d :
  float_query_failed parId inst ->
  readFloat parId inst d = ((NAN, false), d, [MeCom_getf parId inst]).
Proof.
  intros Hf. unfold readFloat, bind, emit, ret. cbn.
  destruct (Z.eqb_spec (u8 (fst (MeCom_ParValuef_get DEV_ADDRESS parId inst))) 1);
    [contradiction|reflexivity].
Qed.

Lemma readLong_failed parId inst d :
  long_query_failed parId inst ->
  readLong parId inst d = ((-1, false), d, [MeCom_getl parId inst]).
Proof.
  intros Hf. unfold readLong, bind, emit, ret. cbn.
  destruct (Z.eqb_spec (u8 (fst (MeCom_ParValuel_get DEV_ADDRESS parId inst))) 1);
    [contradiction|reflexivity].
Qed.

Lemma float_param_failed parId :
  float_query_failed parId INST_MON -> float_param parId = NAN.
Proof. intros Hf. unfold float_param. rewrite readFloat_failed by exact Hf. reflexivity. Qed.

Lemma long_param_failed parId :
  long_query_failed parId INST_COMMON -> long_param parId = -1.
Proof. intros Hf. unfold long_param. rewrite readLong_failed by exact Hf. reflexivity. Qed.

(** *** The command buffer never overflows *)

Lemma str_length_app s t :
  String.length (s ++ t) = (String.length s + String.length t)%nat.
Proof.
  induction s as [|c s IH]; [reflexivity|]. cbn. rewrite IH. reflexivity.
Qed.

Lemma c_str_length s : (String.length (c_str s) <= String.length s)%nat.
Proof.
  induction s as [|c s IH]; [cbn; lia|].
  cbn [c_str]. destruct (Ascii.eqb c NUL); cbn; lia.
Qed.

Lemma skip_blanks_length s : (String.length (skip_blanks s) <= String.length s)%nat.
Proof.
  induction s as [|c s IH]; [cbn; lia|].
  cbn [skip_blanks]. destruct (is_blank c); cbn in *; lia.
Qed.

Lemma pollUsbCommands_cmdBuf input : forall d,
  (String.length (cmdBuf d) <= 127)%nat ->
  (String.length (cmdBuf (state_of (pollUsbCommands input d))) <= 127)%nat.
Proof.
  induction input as [|c rest IH]; intros d Hb; [exact Hb|].
  cbn [pollUsbCommands].
  destruct (Ascii.eqb c "013"); [apply IH; exact Hb|].
  destruct (Ascii.eqb c "010").
  - unfold bind at 1. unfold get at 1. cbv beta iota zeta.
    unfold bind at 1.
    destruct (handleCommandLine (c_str (cmdBuf d)) d) as [[u d1] o1].
    unfold bind at 1. unfold modify at 1. cbv beta iota zeta.
    specialize (IH (set_cmdBuf "" d1) ltac:(cbn; lia)).
    destruct (pollUsbCommands rest (set_cmdBuf "" d1)) as [[u2 d2] o2].
    exact IH.
  - unfold bind at 1. unfold get at 1. cbv beta iota zeta.
    unfold bind at 1.
    destruct (String.length (cmdBuf d) <? 127)%nat eqn:Hlt.
    + unfold modify at 1. cbv beta iota zeta.
      apply Nat.ltb_lt in Hlt.
      assert (Hb' : (String.length (cmdBuf (set_cmdBuf (cmdBuf d ++ String c "") d))
                     <= 127)%nat).
      { cbn [cmdBuf set_cmdBuf]. rewrite str_length_app. cbn. lia. }
      specialize (IH _ Hb').
      destruct (pollUsbCommands rest _) as [[u2 d2] o2]. exact IH.
    + unfold ret at 1. cbv beta iota zeta.
      specialize (IH d Hb).
      destruct (pollUsbCommands rest d) as [[u2 d2] o2]. exact IH.
Qed.

Lemma act_cmdBuf a d :
  (String.length (cmdBuf d) <= 127)%nat ->
  (String.length (cmdBuf (act a d)) <= 127)%nat.
Proof.
  intros Hb. destruct a as [|inp]; [exact Hb|].
  cbn [act]. pose proof (loop_run inp d) as Hrun. cbv zeta in Hrun. rewrite Hrun.
  pose proof (pollUsbCommands_cmdBuf (usb_in inp) d Hb) as Hp.
  destruct (tick_due inp d); cbv zeta; cbn [state_of fst snd]; [|exact Hp].
  change (snd (fst (telemetry inp ?x))) with (state_of (telemetry inp x)).
  rewrite telemetry_final. unfold telemetry_state.
  destruct (fst (fst (hdc_of inp _))); exact Hp.
Qed.

(** Every line the poller hands to the dispatcher fits the buffer. *)
Lemma dispatched_line_fits l :
  (String.length (skip_blanks (c_str (cmdBuf (run l initial)))) <= 127)%nat.
Proof.
  assert (Hb : (String.length (cmdBuf (run l initial)) <= 127)%nat).
  { assert (H0 : (String.length (cmdBuf initial) <= 127)%nat) by (cbn; lia).
    revert H0. generalize initial.
    induction l as [|a l IH]; intros d Hd; [exact Hd|].
    cbn [run fold_left]. fold (run l (act a d)). apply IH, act_cmdBuf, Hd. }
  pose proof (skip_blanks_length (c_str (cmdBuf (run l initial)))).
  pose proof (c_str_length (cmdBuf (run l initial))). lia.
Qed.

(** *** Properties of the row *)

Lemma header_fields : csv_field_count merged_header = 35%nat.
Proof. vm_compute. reflexivity. Qed.

(** C1.  The header line printed by [printMergedHeader] and the row
    printed by a telemetry tick are compared by their comma-separated
    field counts, for any float printer and error text that contain no
    comma and whatever reads failed: the header has 35 fields (it opens
    with [ms]), every row has 34 (no time stamp is printed). *)
Theorem header_row_field_counts printFloat inp d0 d :
  (forall x digits, comma_free (printFloat x digits)) ->
  err_text_comma_free inp ->
  serial_lines printFloat (output_of (printMergedHeader d0)) = [merged_header] /\
  csv_field_count merged_header = 35%nat /\
  List.length (row_fields (output_of (telemetry inp d))) = 34%nat /\
  exists row, serial_lines printFloat (output_of (telemetry inp d)) = [row] /\
              csv_field_count row = 34%nat.
Proof.
  intros Hpf Herr. split; [reflexivity|]. split; [apply header_fields|].
  split; [rewrite telemetry_row; reflexivity|].
  apply telemetry_line_fields; assumption.
Qed.

(** C5.  When the pulse counter has advanced by PULSES_PER_REV (6) since
    the previous sample, the RPM field of the row is 60, which is 60
    divided by the period of 1000 ms in seconds; the tick records the
    new snapshot as the previous sample. *)
Theorem rpm_one_revolution inp d :
  pulse_delta d = PULSES_PER_REV ->
  rpm_field (output_of (telemetry inp d)) = [SFloat (f32_of_Z 60) 0] /\
  f32_div (f32_of_Z 60) (f32_div (f32_of_Z 1000) (f32_of_Z 1000)) = f32_of_Z 60 /\
  lastPulses (state_of (telemetry inp d)) = fgPulses d.
Proof.
  intros Hdp. split; [|split].
  - unfold rpm_field. rewrite telemetry_row. cbn [nth telemetry_fields].
    unfold pump_rpm_of. fold (pulse_delta d). rewrite Hdp. reflexivity.
  - vm_compute. reflexivity.
  - rewrite telemetry_final. unfold telemetry_state.
    destruct (fst (fst (hdc_of inp d))); reflexivity.
Qed.

(** C6.  With status bits (the top two bits of the first SPI byte) 0
    and a 14-bit raw count of 1638 ([Out_min]) [readPressure] yields
    [P_min * 1000], which is 0.0 mb, and status 0, and the row prints
    that pressure and status 0.  For every non-zero value of the status
    bits, [readPressure] yields NaN with that status, the pressure field
    of the row is the literal [nan], and the status field of the same
    row prints the value of the status bits, which is 1, 2 or 3. *)
Theorem pressure_boundary_and_status :
  (forall byte1 byte2,
     status_bits (u8 byte1) = 0 ->
     raw_count (u8 byte1) (u8 byte2) = 1638 ->
     readPressure (byte1, byte2) = (f32_mul P_min (f32_of_Z 1000), 0)) /\
  f32_mul P_min (f32_of_Z 1000) = S754_zero false /\
  Out_min = f32_of_Z 1638 /\
  (forall inp d printFloat,
     let status := status_bits (u8 (fst (spi inp))) in
     let row := output_of (telemetry inp d) in
     status <> 0 ->
     readPressure (spi inp) = (NAN, status) /\
     pressure_field row = [SStr "nan"] /\
     List.map (render_item printFloat) (pressure_field row) = ["nan"] /\
     status_field row = [SLong status] /\
     List.map (render_item printFloat) (status_field row) = [print_long status] /\
     1 <= status <= 3) /\
  (forall inp d,
     let row := output_of (telemetry inp d) in
     status_bits (u8 (fst (spi inp))) = 0 ->
     raw_count (u8 (fst (spi inp))) (u8 (snd (spi inp))) = 1638 ->
     pressure_field row = [SFloat (S754_zero false) 1] /\
     status_field row = [SLong 0]).
Proof.
  split; [|split; [|split; [|split]]].
  - intros byte1 byte2 Hst Hraw.
    destruct (pressure_bits byte1 byte2) as (Hs & Hr & _).
    unfold readPressure. cbn [fst snd].
    rewrite Hs, Hr, Hst, Hraw. vm_compute. reflexivity.
  - vm_compute. reflexivity.
  - reflexivity.
  - intros inp d pf status row Hne. subst row.
    destruct (pressure_bits (fst (spi inp)) (snd (spi inp))) as (Hs & _ & Hrange).
    fold status in Hrange.
    assert (Hread : readPressure (spi inp) = (NAN, status)).
    { unfold readPressure. rewrite Hs. fold status.
      destruct (Z.eqb_spec status 0) as [E|_]; [contradiction|reflexivity]. }
    split; [exact Hread|].
    unfold pressure_field, status_field. rewrite telemetry_row.
    cbn [nth telemetry_fields]. rewrite Hread. cbn [fst snd].
    destruct (Z.eqb_spec status 0) as [E|_]; [contradiction|].
    repeat split; try reflexivity; lia.
  - intros inp d row Hst Hraw. subst row.
    destruct (pressure_bits (fst (spi inp)) (snd (spi inp))) as (Hs & Hr & _).
    assert (Hread : readPressure (spi inp) = (S754_zero false, 0)).
    { unfold readPressure. rewrite Hs, Hr, Hst, Hraw. vm_compute. reflexivity. }
    unfold pressure_field, status_field. rewrite telemetry_row.
    cbn [nth telemetry_fields]. rewrite Hread. cbn [fst snd Z.eqb].
    split; reflexivity.
Qed.

(** C7.  The cache starts at (-40.0, 0.0).  A poll fails exactly on a bus
    error of the pointer write or a byte count other than 4; a tick
    whose poll fails leaves the cache unchanged and prints the cached
    values, a tick whose poll succeeds stores and prints the converted
    reading.  The row of a failed poll equals the row of a successful
    poll that reads the cached values.  Along every run of interrupts
    and loop passes from the initial state the cache holds the most
    recent successful reading, or the initial values if there is none. *)
Theorem environmental_cache_invariant :
  cache initial = (f32_of_Z (-40), f32_of_Z 0) /\
  (forall w, hdc_reading w = None <->
             (endTransmission w <> 0 \/ u8 (requestFrom w) <> 4)) /\
  (forall inp d,
     let r := telemetry inp d in
     match hdc_reading (wire inp) with
     | None =>
         cache (state_of r) = cache d /\
         temp_field (output_of r) = [SFloat (lastTemperature d) 1] /\
         humidity_field (output_of r) = [SFloat (lastHumidity d) 1]
     | Some (t, h) =>
         cache (state_of r) = (t, h) /\
         temp_field (output_of r) = [SFloat t 1] /\
         humidity_field (output_of r) = [SFloat h 1]
     end) /\
  (forall inp inp' d,
     hdc_reading (wire inp) = None ->
     hdc_reading (wire inp') = Some (cache d) ->
     spi inp' = spi inp -> err_text inp' = err_text inp ->
     row_fields (output_of (telemetry inp d)) =
     row_fields (output_of (telemetry inp' d))) /\
  (forall l, cache (run l initial) =
             latest_reading l initial (f32_of_Z (-40), f32_of_Z 0)).
Proof.
  split; [reflexivity|]. split; [exact hdc_reading_fails|].
  split; [|split].
  - intros inp d r. subst r.
    pose proof (telemetry_cache inp d) as Hc.
    unfold temp_field, humidity_field. rewrite telemetry_row.
    cbn [nth telemetry_fields]. unfold hdc_of. rewrite readHDCData_cases.
    destruct (hdc_reading (wire inp)) as [[t h]|]; repeat split; assumption.
  - intros inp inp' d Hfail Hok Hspi Herr.
    rewrite !telemetry_row. unfold telemetry_fields, hdc_of.
    rewrite !readHDCData_cases, Hfail, Hok, Hspi, Herr. reflexivity.
  - intros l. rewrite run_cache. reflexivity.
Qed.

(** C9.  When the client reports failure, [readFloat] returns NaN and
    [readLong] returns -1, both with [okOut = false].  The row is
    emitted all the same, with 34 fields on one line.  A failed long
    column prints -1 and a failed float column prints NaN with its
    digits; the two columns that convert the float to [long] before
    printing (LDD_ActualOutputCurrentRaw, AnalogVoltageInputRawADC)
    print the conversion of NaN to [long], an integer that C leaves
    undefined, in place of the sentinel. *)
Theorem failed_query_sentinels :
  (forall parId inst d, float_query_failed parId inst ->
     value_of (readFloat parId inst d) = (NAN, false)) /\
  (forall parId inst d, long_query_failed parId inst ->
     value_of (readLong parId inst d) = (-1, false)) /\
  (forall inp d printFloat,
     List.length (row_fields (output_of (telemetry inp d))) = 34%nat /\
     exists row, serial_lines printFloat (output_of (telemetry inp d)) = [row]) /\
  (forall inp d k parId,
     In (k, parId) long_columns -> long_query_failed parId INST_COMMON ->
     nth k (row_fields (output_of (telemetry inp d))) [] = [SLong (-1)]) /\
  (forall inp d k parId digits,
     In (k, parId, digits) float_columns -> float_query_failed parId INST_MON ->
     nth k (row_fields (output_of (telemetry inp d))) [] = [SFloat NAN digits]) /\
  (forall inp d k parId,
     In (k, parId) cast_columns -> float_query_failed parId INST_MON ->
     nth k (row_fields (output_of (telemetry inp d))) [] =
       [SLong (long_of_undef NAN)]).
Proof.
  split; [|split; [|split; [|split; [|split]]]].
  - intros parId inst d Hf. rewrite readFloat_failed by exact Hf. reflexivity.
  - intros parId inst d Hf. rewrite readLong_failed by exact Hf. reflexivity.
  - intros inp d pf. split; [rewrite telemetry_row; reflexivity|].
    apply telemetry_one_line.
  - intros inp d k parId Hin Hf. rewrite telemetry_row.
    cbn [In long_columns] in Hin.
    repeat (destruct Hin as [Heq|Hin];
            [injection Heq as <- <-; cbn [nth telemetry_fields];
             rewrite long_param_failed by exact Hf; reflexivity|]).
    contradiction.
  - intros inp d k parId digits Hin Hf. rewrite telemetry_row.
    cbn [In float_columns] in Hin.
    repeat (destruct Hin as [Heq|Hin];
            [injection Heq as <- <- <-; cbn [nth telemetry_fields];
             rewrite float_param_failed by exact Hf; reflexivity|]).
    contradiction.
  - intros inp d k parId Hin Hf. rewrite telemetry_row.
    cbn [In cast_columns] in Hin.
    repeat (destruct Hin as [Heq|Hin];
            [injection Heq as <- <-; cbn [nth telemetry_fields];
             rewrite float_param_failed by exact Hf; reflexivity|]).
    contradiction.
Qed.

(** C10.  Between a tick and the next one, over any interleaving of
    interrupts and loop passes that do not tick, the delta computed by
    the next tick equals the number of interrupts modulo 2^32, whatever
    the value of the counter was (so also across its wrap-around); it is
    the number of interrupts itself when that is below 2^32, and the RPM
    field of the next row is derived from it. *)
Theorem pulse_delta_modular inp1 d0 l inp2 :
  tick_due inp1 d0 = true ->
  idle l (act (Pass inp1) d0) ->
  let d2 := tick_state inp2 (run l (act (Pass inp1) d0)) in
  pulse_delta d2 = count_pulses l mod 2 ^ 32 /\
  (count_pulses l < 2 ^ 32 -> pulse_delta d2 = count_pulses l) /\
  rpm_field (output_of (telemetry inp2 d2)) =
    [SFloat (f32_div (f32_mul (f32_of_Z (count_pulses l mod 2 ^ 32)) (f32_of_Z 60))
                     (f32_of_Z PULSES_PER_REV)) 0].
Proof.
  intros Htick Hidle d2.
  assert (Hdelta : pulse_delta d2 = count_pulses l mod 2 ^ 32).
  { subst d2. unfold pulse_delta.
    destruct (tick_state_counters inp2 (run l (act (Pass inp1) d0))) as [-> ->].
    destruct (idle_counters l _ Hidle) as [Hlast Hfg].
    pose proof (act_counters (Pass inp1) d0) as [Hf Hp]. rewrite Htick in Hp.
    rewrite Hlast, Hp. rewrite Hf in Hfg.
    unfold u32 in *. rewrite Zminus_mod, Hfg, <- Zminus_mod.
    f_equal. lia. }
  split; [exact Hdelta|]. split.
  - intros Hsmall. rewrite Hdelta. apply Z.mod_small. split; [|exact Hsmall].
    clear. induction l as [|[|inp] l IH]; cbn [count_pulses]; lia.
  - unfold rpm_field. rewrite telemetry_row. cbn [nth telemetry_fields].
    unfold pump_rpm_of. fold (pulse_delta d2). rewrite Hdelta. reflexivity.
Qed.

End TelemetryProofs.

(** * Examples *)

(** C2 at work.  "OK" and a carriage return arrive while the clock
    wraps: the frame keeps the terminator and is forwarded.  On a silent
    bus the call returns at the first check that finds the timeout
    elapsed, and nothing is forwarded. *)
Lemma recvData_contract_witness :
  1 <= 8 /\
  ArduinoSerial.in_time 20 demo_clock 10 = false /\
  (exists r,
     ArduinoSerial.ArduinoSerial_recvData 8 20 demo_read demo_clock 11
       = Some (r, Some [79; 75; 13]) /\
     ArduinoSerial.rcv_stop r = ArduinoSerial.StopEol /\
     ArduinoSerial.rcv_iters r = 5%nat) /\
  (exists r,
     ArduinoSerial.ArduinoSerial_recvData 8 20 (fun _ => -1) demo_clock 11
       = Some (r, None) /\
     ArduinoSerial.rcv_stop r = ArduinoSerial.StopTimeout /\
     ArduinoSerial.rcv_iters r = 10%nat).
Proof.
  split; [lia|]. split; [reflexivity|]. split.
  - destruct (recvData_contract 8 20 demo_read demo_clock 10%nat) as (r & Hrun & _).
    + lia.
    + reflexivity.
    + exists r. specialize (Hrun 11%nat (Nat.lt_succ_diag_r 10)).
      vm_compute in Hrun. injection Hrun as <-.
      split; [reflexivity|]. split; reflexivity.
  - destruct (recvData_contract 8 20 (fun _ => -1) demo_clock 10%nat)
      as (r & Hrun & _ & _ & _ & _ & _ & _ & Hsilent).
    + lia.
    + reflexivity.
    + destruct Hsilent as (_ & Hstop & Hfwd); [intros j _; lia|].
      exists r. specialize (Hrun 11%nat (Nat.lt_succ_diag_r 10)).
      rewrite Hfwd in Hrun. split; [exact Hrun|]. split; [exact Hstop|].
      vm_compute in Hrun. injection Hrun as <-. reflexivity.
Defined.

(** A stream without a terminator fills the buffer: the frame is cut at
    the capacity and forwarded as it is. *)
Example recvData_truncates :
  ArduinoSerial.ArduinoSerial_recvData 4 20 (fun _ => 65) demo_clock 11
  = Some (ArduinoSerial.mkReceived [65; 65; 65; 65] ArduinoSerial.StopFull 4,
          Some [65; 65; 65; 65]).
Proof. vm_compute. reflexivity. Qed.

(** C3 at work: a bare [setc] between blanks and tabs. *)
Lemma missing_value_reply_witness :
  missing (snd (tokenise (skip_blanks demo_bare_setc))) = true /\
  fst (tokenise (skip_blanks demo_bare_setc)) = "SETC" /\
  output_of (@handleCommandLine demo_platform healthy_client demo_bare_setc initial)
    = [Serial_println (SStr "ERR SETC missing_value")].
Proof.
  split; [reflexivity|]. split; [reflexivity|].
  apply (@missing_value_reply demo_platform healthy_client demo_bare_setc initial
           eq_refl).
  reflexivity.
Defined.

(** C4 at work: -5 stores 0, 150 stores 100, 55 stores 55, also with
    blanks and lower case; 40000 is read as -25536 and stores 0. *)
Lemma setpwr_clamps_witness :
  (- 2 ^ 15 <= -5 < 2 ^ 15 /\ - 2 ^ 15 <= 150 < 2 ^ 15 /\ - 2 ^ 31 <= 40000 < 2 ^ 31) /\
  currentSpeedPercent
    (state_of (@handleCommandLine demo_platform healthy_client "SETPWR -5" initial)) = 0 /\
  currentSpeedPercent
    (state_of (@handleCommandLine demo_platform healthy_client "SETPOWER 150" initial)) = 100 /\
  currentSpeedPercent
    (state_of (@handleCommandLine demo_platform healthy_client "SETPWR 40000" initial)) = 0 /\
  tokenise (skip_blanks "  setpwr   55") = ("SETPWR", Some "55") /\
  atoi "55" = 55 /\
  @handleCommandLine demo_platform healthy_client "  setpwr   55" initial =
    (tt, set_currentSpeedPercent 55 initial,
     [AnalogWrite 9 115; Serial_print (SStr "OK SETPWR "); Serial_println (SLong 55)]).
Proof.
  split; [lia|].
  destruct (@setpwr_clamps demo_platform healthy_client) as (Hline & Htext & Hwrap).
  pose proof (Htext (-5) "SETPWR" initial ltac:(lia) (or_introl eq_refl)) as (H1 & _).
  pose proof (Htext 150 "SETPOWER" initial ltac:(lia) (or_intror eq_refl)) as (H2 & _).
  pose proof (Hwrap 40000 "SETPWR" initial ltac:(lia) (or_introl eq_refl)) as (H5 & _).
  pose proof (Hline "  setpwr   55" initial "55" (or_introl eq_refl) eq_refl
                ltac:(discriminate)) as (H3 & _ & H4 & _).
  split; [|split; [|split; [|split; [|split]]]].
  - change "SETPWR -5" with ("SETPWR" ++ " " ++ print_long (-5)). rewrite H1. reflexivity.
  - change "SETPOWER 150" with ("SETPOWER" ++ " " ++ print_long 150). rewrite H2. reflexivity.
  - change "SETPWR 40000" with ("SETPWR" ++ " " ++ print_long 40000). rewrite H5. reflexivity.
  - reflexivity.
  - reflexivity.
  - apply injective_projections; [apply injective_projections|]; cbn [fst snd].
    + reflexivity.
    + exact H3.
    + exact H4.
Defined.

(** C4 as stated fails for an integer beyond the 16-bit [int]: [atoi]
    delivers 40000 as -25536 and the stored speed is 0, not 100.  It
    also fails where a tab, not a space, follows the verb: the line is
    rejected as an unknown command and the speed stays as it was. *)
Lemma setpwr_wrap_counterexample :
  atoi "40000" = -25536 /\
  constrain 40000 0 100 = 100 /\
  @handleCommandLine demo_platform healthy_client "SETPWR 40000" initial =
    (tt, set_currentSpeedPercent 0 initial,
     [AnalogWrite 9 255; Serial_print (SStr "OK SETPWR "); Serial_println (SLong 0)]) /\
  currentSpeedPercent
    (state_of (@handleCommandLine demo_platform healthy_client "SETPWR 40000" initial))
  <> constrain 40000 0 100 /\
  @handleCommandLine demo_platform healthy_client demo_tab_setpwr initial =
    (tt, initial,
     [Serial_print (SStr "ERR unknown_cmd ");
      Serial_println (SStr ("SETPWR" ++ String TAB "55"))]).
Proof.
  split; [reflexivity|]. split; [reflexivity|]. split; [reflexivity|].
  split; [|reflexivity]. discriminate.
Qed.

(** C6 at work: the bytes 6 and 102 (status bits 0, raw count 1638), and
    a row read with first byte 70 (status bits 1). *)
Lemma pressure_boundary_and_status_witness :
  (status_bits (u8 6) = 0 /\ raw_count (u8 6) (u8 102) = 1638) /\
  readPressure (6, 102) = (S754_zero false, 0) /\
  status_bits (u8 (fst (spi demo_pass_degraded))) = 1 /\
  pressure_field (output_of (@telemetry demo_platform silent_client demo_pass_degraded initial))
    = [SStr "nan"] /\
  status_field (output_of (@telemetry demo_platform silent_client demo_pass_degraded initial))
    = [SLong 1].
Proof.
  destruct (@pressure_boundary_and_status demo_platform silent_client)
    as (Hb & Hz & _ & Hnan & _).
  assert (H0 : status_bits (u8 6) = 0) by reflexivity.
  assert (H1 : raw_count (u8 6) (u8 102) = 1638) by reflexivity.
  assert (Hne : status_bits (u8 (fst (spi demo_pass_degraded))) <> 0)
    by (vm_compute; discriminate).
  destruct (Hnan demo_pass_degraded initial demo_printFloat Hne)
    as (_ & Hp & _ & Hs & _).
  split; [split; assumption|].
  split; [rewrite (Hb 6 102 H0 H1), Hz; reflexivity|].
  split; [reflexivity|]. split; [exact Hp|exact Hs].
Defined.

(** C5 at work: six pulses across the wrap-around of the counter. *)
Lemma rpm_one_revolution_witness :
  @pulse_delta demo_device = PULSES_PER_REV /\
  rpm_field (output_of (@telemetry demo_platform silent_client demo_pass demo_device))
    = [SFloat (f32_of_Z 60) 0].
Proof.
  split; [reflexivity|].
  apply (@rpm_one_revolution demo_platform silent_client demo_pass demo_device).
  reflexivity.
Defined.

(** C1 at work: 35 header fields against 34 row fields. *)
Lemma header_row_field_counts_witness :
  (forall x digits, comma_free (demo_printFloat x digits)) /\
  err_text_comma_free demo_pass /\
  csv_field_count merged_header = 35%nat /\
  exists row,
    serial_lines demo_printFloat
      (output_of (@telemetry demo_platform silent_client demo_pass initial)) = [row] /\
    csv_field_count row = 34%nat.
Proof.
  assert (Hpf : forall x digits, comma_free (demo_printFloat x digits))
    by (intros x digits; unfold demo_printFloat; destruct (is_nan x); reflexivity).
  assert (Herr : err_text_comma_free demo_pass) by exact I.
  split; [exact Hpf|]. split; [exact Herr|].
  destruct (@header_row_field_counts demo_platform silent_client demo_printFloat
              demo_pass initial initial Hpf Herr) as (_ & Hh & _ & Hrow).
  split; [exact Hh|exact Hrow].
Defined.

(** C8 at work: an unknown verb is echoed in upper case, the argument
    keeps its spelling. *)
Lemma dispatcher_parsing_witness :
  (String.length (skip_blanks "  Frob  x1") <= 127)%nat /\
  tokenise (skip_blanks "  Frob  x1") = ("FROB", Some "x1") /\
  output_of (@handleCommandLine demo_platform healthy_client "  Frob  x1" initial)
    = [Serial_print (SStr "ERR unknown_cmd "); Serial_println (SStr "FROB")].
Proof.
  assert (Hlen : (String.length (skip_blanks "  Frob  x1") <= 127)%nat)
    by (cbn; lia).
  destruct (@dispatcher_parsing demo_platform healthy_client "  Frob  x1" initial Hlen)
    as (Htok & _ & _ & Hreply).
  split; [exact Hlen|]. split; [exact Htok|].
  destruct Hreply as [Hrun _]; [discriminate|reflexivity|].
  rewrite Hrun. reflexivity.
Defined.

(** C8 as stated fails where a tab follows the verb: the blank-delimited
    token of [ping<TAB>x] is [ping], but the dispatcher takes the whole
    line as the verb and rejects it. *)
Lemma tab_delimiter_counterexample :
  spec_tokenise (skip_blanks demo_tab_line) = ("PING", Some "x") /\
  tokenise (skip_blanks demo_tab_line) = ("PING" ++ String TAB "X", None) /\
  tokenise (skip_blanks demo_tab_line) <> spec_tokenise (skip_blanks demo_tab_line) /\
  output_of (@handleCommandLine demo_platform healthy_client demo_tab_line initial)
    = [Serial_print (SStr "ERR unknown_cmd ");
       Serial_println (SStr ("PING" ++ String TAB "X"))].
Proof.
  split; [reflexivity|]. split; [reflexivity|]. split; [|reflexivity].
  discriminate.
Qed.

(** C10 at work: five pulses carry the counter from 4294967294 to 3. *)
Lemma pulse_delta_modular_witness :
  let l := [Interrupt; Interrupt; Pass demo_pass_idle; Interrupt; Interrupt; Interrupt] in
  let d1 := @act demo_platform silent_client (Pass demo_pass) demo_device in
  @tick_due demo_pass demo_device = true /\
  @idle demo_platform silent_client l d1 /\
  fgPulses (@run demo_platform silent_client l d1) = 3 /\
  @pulse_delta
    (@tick_state demo_platform silent_client demo_pass_degraded
       (@run demo_platform silent_client l d1)) = 5.
Proof.
  intros l d1.
  assert (Htick : @tick_due demo_pass demo_device = true) by reflexivity.
  assert (Hidle : @idle demo_platform silent_client l d1)
    by (vm_compute; repeat split).
  split; [exact Htick|]. split; [exact Hidle|]. split; [reflexivity|].
  destruct (@pulse_delta_modular demo_platform silent_client demo_pass demo_device
              l demo_pass_degraded Htick Hidle) as (_ & Hsmall & _).
  apply Hsmall. vm_compute. reflexivity.
Defined.

(** A degraded tick, all parameter queries failing, pressure status 1 and
    a short I2C read: the row keeps its shape; the third float column
    shows the converted NaN, here 0. *)
Example degraded_row :
  serial_lines demo_printFloat
    (output_of (@telemetry demo_platform silent_client demo_pass_degraded initial))
  = ["-1,-1,-1,,nan,nan,0,nan,nan,nan,nan,nan,nan,nan,nan,nan,nan,0,nan,nan,nan,nan,nan,nan,nan,nan,nan,nan,0.0,nan,0.0,0.0,40,1"].
Proof. vm_compute. reflexivity. Qed.

(** The cache after a good poll, an interrupt, an idle pass and a failed
    poll is still the reading of the good poll: 42.5 degrees, 25 percent. *)
Example cache_survives_failure :
  cache (@run demo_platform healthy_client
           [Pass demo_pass; Interrupt; Pass demo_pass_idle; Pass demo_pass_degraded]
           initial)
  = (f32_lit 85 2, f32_of_Z 25) /\
  hdc_reading (wire demo_pass) = Some (f32_lit 85 2, f32_of_Z 25) /\
  hdc_reading (wire demo_pass_degraded) = None.
Proof. repeat split; vm_compute; reflexivity. Qed.

(** The boundary of the calibration range: raw count 1638 reads 0.0 mb. *)
Example pressure_at_Out_min :
  readPressure (6, 102) = (S754_zero false, 0) /\
  rawCounts_of 6 102 = 1638 /\
  readPressure (70, 102) = (NAN, 1).
Proof. repeat split; vm_compute; reflexivity. Qed.

(** * Further properties of the code *)

Ltac split_ifs :=
  repeat match goal with
         | |- context [if ?b then _ else _] => destruct b
         end.

Ltac run_command :=
  cbv [bind writeLong writeFloat emit ret println print modify get
       setPumpSpeed state_of output_of value_of fst snd app].

Ltac run_tick inp d :=
  unfold telemetry, printErrorTextField;
  unfold bind at 1; unfold get at 1; cbv beta iota zeta;
  unfold bind at 1; unfold modify at 1; cbv beta iota zeta;
  destruct (readPressure (spi inp)) as [pressure_mb pstat];
  destruct (readHDCData (wire inp) (lastTemperature d) (lastHumidity d))
    as [[hOk temperature] humidity];
  destruct hOk; destruct (err_text inp); destruct (pstat =? 0).

(** ** Pump actuator *)

Lemma s32_id n : - 2 ^ 31 <= n < 2 ^ 31 -> s32 n = n.
Proof. intros Hn. unfold s32. rewrite Z.mod_small; lia. Qed.

(** The duty value written for a speed already in 0..100. *)
Lemma duty_value c :
  0 <= c <= 100 -> s16 (map c 0 100 255 0) = 255 - 255 * c / 100.
Proof.
  intros Hc. unfold map.
  replace ((c - 0) * (0 - 255)) with (- (255 * c)) by lia.
  rewrite (s32_id (- (255 * c))) by lia.
  replace (100 - 0) with 100 by lia.
  rewrite Z.quot_opp_l by lia. rewrite Z.quot_div_nonneg by lia.
  assert (0 <= 255 * c / 100 <= 255).
  { split; [apply Z.div_pos; lia|]. apply Z.div_le_upper_bound; lia. }
  rewrite s32_id by lia. rewrite s16_id by lia. lia.
Qed.

Section PumpProofs.
Context {P : Platform} {mc : MeComClient}.

(** X1.  [setPumpSpeed] writes one duty value to the pump pin and
    nothing else, for every [int] argument: the value lies in 0..255, is
    255 (stopped) for a speed of 0 or less and 0 (full) for 100 or more,
    and never grows when the speed grows. *)
Theorem pump_duty_inverse (p q : Z) (d : Device) :
  p <= q ->
  exists vp vq,
    setPumpSpeed p d = (tt, d, [AnalogWrite pumpPwmPin vp]) /\
    setPumpSpeed q d = (tt, d, [AnalogWrite pumpPwmPin vq]) /\
    0 <= vq <= vp /\ vp <= 255 /\
    (p <= 0 -> vp = 255) /\ (100 <= q -> vq = 0).
Proof.
  intros Hpq.
  pose proof (constrain_range p 0 100 ltac:(lia)) as Hp.
  pose proof (constrain_range q 0 100 ltac:(lia)) as Hq.
  exists (255 - 255 * constrain p 0 100 / 100), (255 - 255 * constrain q 0 100 / 100).
  unfold setPumpSpeed, emit. rewrite !duty_value by assumption.
  split; [reflexivity|]. split; [reflexivity|].
  assert (Hmono : constrain p 0 100 <= constrain q 0 100).
  { unfold constrain.
    destruct (p <? 0) eqn:E1; destruct (q <? 0) eqn:E2;
      destruct (p >? 100) eqn:E3; destruct (q >? 100) eqn:E4;
      rewrite ?Z.gtb_ltb in *;
      repeat match goal with
             | H : (_ <? _) = true |- _ => apply Z.ltb_lt in H
             | H : (_ <? _) = false |- _ => apply Z.ltb_ge in H
             end; lia. }
  assert (Hdiv : 255 * constrain p 0 100 / 100 <= 255 * constrain q 0 100 / 100)
    by (apply Z.div_le_mono; lia).
  assert (Hlo : 0 <= 255 * constrain p 0 100 / 100) by (apply Z.div_pos; lia).
  assert (Hhi : 255 * constrain q 0 100 / 100 <= 255)
    by (apply Z.div_le_upper_bound; lia).
  split; [lia|]. split; [lia|]. split.
  - intros H0. assert (constrain p 0 100 = 0).
    { unfold constrain. destruct (p <? 0) eqn:E; [reflexivity|].
      apply Z.ltb_ge in E. assert (p = 0) by lia. subst p. reflexivity. }
    rewrite H. reflexivity.
  - intros H100. assert (constrain q 0 100 = 100).
    { unfold constrain. destruct (q <? 0) eqn:E; [apply Z.ltb_lt in E; lia|].
      destruct (q >? 100) eqn:E2; [reflexivity|].
      rewrite Z.gtb_ltb in E2. apply Z.ltb_ge in E2. lia. }
    rewrite H. reflexivity.
Qed.

End PumpProofs.

(** ** Bus transport adapter, sending *)

Section SendProofs.
Import RS485.

Lemma send_pin l buffer : pin_after l (ArduinoSerial_Send buffer) = LOW.
Proof. reflexivity. Qed.

Lemma pin_after_app t1 : forall l t2,
  pin_after l (t1 ++ t2) = pin_after (pin_after l t1) t2.
Proof.
  induction t1 as [|e t1 IH]; intros l t2; [reflexivity|].
  destruct e; cbn [app pin_after]; apply IH.
Qed.

Lemma frames_of_app t1 t2 : frames_of (t1 ++ t2) = (frames_of t1 ++ frames_of t2)%list.
Proof.
  induction t1 as [|e t1 IH]; [reflexivity|].
  destruct e; cbn [app frames_of]; rewrite IH; reflexivity.
Qed.

(** X15.  Over any sequence of [ArduinoSerial_Send] calls, every frame
    is written while the direction pin is HIGH and flushed before the pin
    goes LOW; the frames leave in the order given; after the last send
    the pin is LOW (receive), whatever it was before.  [setRS485Mode]
    with a mode other than 0 or 1 does nothing. *)
Theorem send_keeps_half_duplex (frames : list string) (l : level) :
  let t := flat_map ArduinoSerial_Send frames in
  writes_framed l true t = true /\
  frames_of t = frames /\
  (frames <> [] -> pin_after l t = LOW) /\
  (forall mode, mode <> RS485_RECEIVE -> mode <> RS485_TRANSMIT ->
                setRS485Mode mode = []).
Proof.
  intros t. subst t. split; [|split; [|split]].
  - revert l. induction frames as [|f frames IH]; intros l; [reflexivity|].
    cbn [flat_map]. unfold ArduinoSerial_Send at 1. cbn. apply IH.
  - induction frames as [|f frames IH]; [reflexivity|].
    cbn [flat_map]. rewrite frames_of_app, IH. reflexivity.
  - revert l. induction frames as [|f frames IH]; intros l Hne; [contradiction|].
    cbn [flat_map]. rewrite pin_after_app, send_pin.
    destruct frames as [|g frames]; [reflexivity|]. apply IH. discriminate.
  - intros mode H0 H1. unfold setRS485Mode.
    destruct (Z.eqb_spec mode RS485_RECEIVE); [contradiction|].
    destruct (Z.eqb_spec mode RS485_TRANSMIT); [contradiction|]. reflexivity.
Qed.

End SendProofs.

(** ** Bus transport adapter, receiving *)

Section ReceiveMore.
Import ArduinoSerial.
Variables (MAX TIMEOUT : Z).

Lemma recv_loop_iters read millis fuel : forall i buf r,
  ArduinoSerial.recv_loop MAX TIMEOUT read millis fuel i buf = Some r ->
  (i < rcv_iters r <= i + fuel)%nat.
Proof.
  induction fuel as [|fuel IH]; intros i buf r Hrun; [discriminate|].
  cbn [ArduinoSerial.recv_loop] in Hrun.
  repeat match type of Hrun with
         | (if ?b then _ else _) = _ => destruct b
         end;
    try (injection Hrun as <-; cbn; lia);
    apply IH in Hrun; lia.
Qed.

Lemma bytes_read_nonneg read n : forall i,
  Forall (fun b => 0 <= b) (bytes_read read i n).
Proof.
  intros i. unfold bytes_read. apply Forall_forall. intros b Hin.
  apply filter_In in Hin. destruct Hin as [_ Hb]. apply Z.leb_le. exact Hb.
Qed.

Lemma bytes_read_length read n : forall i,
  (List.length (bytes_read read i n) <= n)%nat.
Proof.
  intros i. unfold bytes_read.
  etransitivity; [apply filter_length_le|]. rewrite length_map, length_seq. lia.
Qed.

(** X18.  Whenever [ArduinoSerial_recvData]'s loop returns, the frame
    holds at most MEPORT_MAX_RX_BUF_SIZE bytes, so the terminating NUL
    written at [RcvBuf[nread]] lies inside the buffer of capacity + 1;
    each loop body stores at most one byte, and only bytes that [read]
    delivered (never the negative no-data value). *)
Theorem recv_stays_in_buffer read millis fuel r :
  1 <= MAX ->
  ArduinoSerial.recv_loop MAX TIMEOUT read millis fuel 0 [] = Some r ->
  Z.of_nat (List.length (rcv_buf r)) <= MAX /\
  (List.length (rcv_buf r) <= rcv_iters r <= fuel)%nat /\
  Forall (fun b => 0 <= b) (rcv_buf r).
Proof.
  intros Hmax Hrun.
  assert (H0 : Z.of_nat (List.length (@nil Z)) < MAX) by (cbn; lia).
  destruct (recv_loop_spec MAX TIMEOUT read millis _ _ _ _ H0 (Forall_nil _) Hrun)
    as (_ & Hbuf & _ & Hstop).
  pose proof (recv_loop_iters _ _ _ _ _ _ Hrun) as Hit.
  cbn [app] in Hbuf. rewrite Nat.sub_0_r in Hbuf.
  split; [|split].
  - unfold stop_ok in Hstop. destruct (rcv_stop r).
    + destruct Hstop as (body & _ & _ & Hl). exact Hl.
    + destruct Hstop as (Hl & _). lia.
    + destruct Hstop as (_ & Hl & _). lia.
  - split; [|lia]. rewrite Hbuf. apply bytes_read_length.
  - rewrite Hbuf. apply bytes_read_nonneg.
Qed.

(** X19.  The result of the receive loop depends only on the reads and
    clock values of the loop bodies it executed: input that arrives
    after the body in which it stopped (for instance after the
    carriage return) is not consumed and cannot change the frame. *)
Theorem recv_leaves_later_input read millis read' millis' fuel : forall i buf r,
  ArduinoSerial.recv_loop MAX TIMEOUT read millis fuel i buf = Some r ->
  (forall j, (i <= j < rcv_iters r)%nat -> read' j = read j) ->
  millis' 0%nat = millis 0%nat ->
  (forall j, (i < j <= rcv_iters r)%nat -> millis' j = millis j) ->
  ArduinoSerial.recv_loop MAX TIMEOUT read' millis' fuel i buf = Some r.
Proof.
  induction fuel as [|fuel IH]; intros i buf r Hrun Hread H0 Hclock; [discriminate|].
  pose proof (recv_loop_iters _ _ _ _ _ _ Hrun) as Hit.
  cbn [ArduinoSerial.recv_loop] in *.
  rewrite (Hread i) by lia.
  assert (Ht : ArduinoSerial.in_time TIMEOUT millis' i = ArduinoSerial.in_time TIMEOUT millis i).
  { unfold ArduinoSerial.in_time, ArduinoSerial.elapsed, ArduinoSerial.startTime.
    rewrite H0, (Hclock (S i)) by lia. reflexivity. }
  destruct (read i <? 0).
  - destruct (ArduinoSerial.in_time TIMEOUT millis i) eqn:Hin.
    + rewrite Ht. pose proof (recv_loop_iters _ _ _ _ _ _ Hrun) as Hit'.
      apply IH; try assumption; intros j Hj; [apply Hread|apply Hclock]; lia.
    + rewrite Ht. exact Hrun.
  - destruct (read i =? CR); [exact Hrun|].
    destruct (_ >=? MAX); [exact Hrun|].
    destruct (ArduinoSerial.in_time TIMEOUT millis i) eqn:Hin.
    + rewrite Ht. pose proof (recv_loop_iters _ _ _ _ _ _ Hrun) as Hit'.
      apply IH; try assumption; intros j Hj; [apply Hread|apply Hclock]; lia.
    + rewrite Ht. exact Hrun.
Qed.

End ReceiveMore.

(** ** Command poller *)

Lemma str_take_app_full b : forall x,
  str_take (String.length b) (b ++ x) = b.
Proof.
  induction b as [|c b IH]; intros x; cbn.
  - destruct x; reflexivity.
  - rewrite IH. reflexivity.
Qed.

Lemma str_app_assoc (a b c : string) : (a ++ b) ++ c = a ++ (b ++ c).
Proof. induction a as [|x a IH]; [reflexivity|]. cbn. rewrite IH. reflexivity. Qed.

Lemma str_app_nil (a : string) : a ++ "" = a.
Proof. induction a as [|x a IH]; [reflexivity|]. cbn. rewrite IH. reflexivity. Qed.

Section PollProofs.
Context {P : Platform} {mc : MeComClient}.

(** One step of the poller, by the kind of byte. *)
Lemma pollUsbCommands_cons c rest d :
  pollUsbCommands (c :: rest) d =
  if Ascii.eqb c CR_CHAR then pollUsbCommands rest d
  else if Ascii.eqb c LF_CHAR then
    let r1 := handleCommandLine (c_str (cmdBuf d)) d in
    let r2 := pollUsbCommands rest (set_cmdBuf "" (state_of r1)) in
    (tt, state_of r2, (output_of r1 ++ output_of r2)%list)
  else
    pollUsbCommands rest
      (if (String.length (cmdBuf d) <? 127)%nat
       then set_cmdBuf (cmdBuf d ++ String c "") d else d).
Proof.
  cbn [pollUsbCommands]. unfold CR_CHAR, LF_CHAR.
  destruct (Ascii.eqb c "013"); [reflexivity|].
  destruct (Ascii.eqb c "010").
  - unfold bind at 1. unfold get at 1. cbv beta iota zeta.
    unfold bind at 1.
    destruct (handleCommandLine (c_str (cmdBuf d)) d) as [[u d1] o1].
    unfold bind at 1. unfold modify at 1. cbv beta iota zeta.
    cbn [state_of output_of fst snd].
    destruct (pollUsbCommands rest (set_cmdBuf "" d1)) as [[[] d2] o2].
    reflexivity.
  - unfold bind at 1. unfold get at 1. cbv beta iota zeta.
    unfold bind at 1.
    destruct (String.length (cmdBuf d) <? 127)%nat.
    + unfold modify at 1. cbv beta iota zeta.
      destruct (pollUsbCommands rest _) as [[[] d2] o2]. reflexivity.
    + unfold ret at 1. cbv beta iota zeta.
      destruct (pollUsbCommands rest d) as [[[] d2] o2]. reflexivity.
Qed.
(** X2.  [pollUsbCommands] ignores carriage returns wherever they occur:
    the state and the output are those of the same input with every
    carriage return removed. *)
Theorem poll_ignores_carriage_returns (input : list ascii) (d : Device) :
  pollUsbCommands input d = pollUsbCommands (filter not_cr input) d.
Proof.
  revert d. induction input as [|c rest IH]; intros d; [reflexivity|].
  cbn [filter]. unfold not_cr at 1.
  destruct (Ascii.eqb c CR_CHAR) eqn:Ecr; cbn [negb].
  - rewrite pollUsbCommands_cons, Ecr. apply IH.
  - rewrite !pollUsbCommands_cons, Ecr.
    destruct (Ascii.eqb c LF_CHAR).
    + cbv zeta. rewrite IH. reflexivity.
    + apply IH.
Qed.

(** X3.  Input may arrive in any chunks: polling [a ++ b] at once is
    polling [a] and then [b], with the same final state and the outputs
    in sequence (a line may be split between two passes of the loop). *)
Theorem poll_chunks_compose (a b : list ascii) (d : Device) :
  let r1 := pollUsbCommands a d in
  let r2 := pollUsbCommands b (state_of r1) in
  pollUsbCommands (a ++ b) d =
  (tt, state_of r2, (output_of r1 ++ output_of r2)%list).
Proof.
  revert d. induction a as [|c a IH]; intros d.
  - cbn. destruct (pollUsbCommands b d) as [[[] d2] o2]. reflexivity.
  - cbv zeta in *. cbn [app]. rewrite !pollUsbCommands_cons.
    destruct (Ascii.eqb c CR_CHAR); [apply IH|].
    destruct (Ascii.eqb c LF_CHAR); [|apply IH].
    cbv zeta. rewrite IH. cbn [state_of output_of fst snd].
    rewrite app_assoc. reflexivity.
Qed.

Lemma poll_accumulates line : forall d,
  one_line line = true ->
  (String.length (cmdBuf d) <= 127)%nat ->
  pollUsbCommands (list_ascii_of_string line) d =
  (tt, set_cmdBuf (str_take 127 (cmdBuf d ++ line)) d, []).
Proof.
  induction line as [|c line IH]; intros d Hline Hlen.
  - cbn [list_ascii_of_string pollUsbCommands]. unfold ret.
    rewrite str_app_nil, str_take_all by exact Hlen. destruct d; reflexivity.
  - cbn [one_line] in Hline.
    apply andb_prop in Hline. destruct Hline as [Hc Hline].
    apply andb_prop in Hc. destruct Hc as [Hcr Hlf].
    apply negb_true_iff in Hcr, Hlf.
    cbn [list_ascii_of_string]. rewrite pollUsbCommands_cons, Hcr, Hlf.
    destruct (String.length (cmdBuf d) <? 127)%nat eqn:Hlt.
    + apply Nat.ltb_lt in Hlt. rewrite IH; [|exact Hline|].
      * cbn [cmdBuf set_cmdBuf]. rewrite str_app_assoc. cbn [append].
        destruct d; reflexivity.
      * cbn [cmdBuf set_cmdBuf]. rewrite str_length_app. cbn. lia.
    + apply Nat.ltb_ge in Hlt.
      assert (Hfull : String.length (cmdBuf d) = 127%nat) by lia.
      rewrite IH by assumption.
      pose proof (str_take_app_full (cmdBuf d)) as Ht. rewrite Hfull in Ht.
      rewrite !Ht. reflexivity.
Qed.

(** X4.  A line feed dispatches the characters collected since the last
    one: what is already in the buffer followed by the new characters,
    cut at 127 characters (the rest of an over-long line is dropped, not
    carried into the next line) and at the first NUL; the buffer is empty
    afterwards. *)
Theorem poll_dispatches_line (line : string) (d : Device) :
  one_line line = true ->
  (String.length (cmdBuf d) <= 127)%nat ->
  let buf := str_take 127 (cmdBuf d ++ line) in
  let r := handleCommandLine (c_str buf) (set_cmdBuf buf d) in
  pollUsbCommands (list_ascii_of_string line ++ [LF_CHAR]) d =
  (tt, set_cmdBuf "" (state_of r), output_of r).
Proof.
  intros Hline Hlen buf r.
  pose proof (poll_chunks_compose (list_ascii_of_string line) [LF_CHAR] d) as Hc.
  cbv zeta in Hc. rewrite Hc. rewrite (poll_accumulates line d Hline Hlen).
  cbn [state_of output_of fst snd app]. fold buf.
  rewrite pollUsbCommands_cons.
  change (Ascii.eqb LF_CHAR CR_CHAR) with false.
  change (Ascii.eqb LF_CHAR LF_CHAR) with true. cbv iota zeta.
  cbn [cmdBuf set_cmdBuf pollUsbCommands]. fold r.
  cbn [ret state_of output_of fst snd]. rewrite app_nil_r. reflexivity.
Qed.

End PollProofs.

(** ** Command dispatcher, further *)

Lemma toupper_facts c :
  is_lower (toupper c) = false /\
  toupper (toupper c) = toupper c /\
  Ascii.eqb (toupper c) SPACE = Ascii.eqb c SPACE /\
  is_blank (toupper c) = is_blank c.
Proof.
  destruct c as [[] [] [] [] [] [] [] []]; repeat split; reflexivity.
Qed.

Lemma str_map_toupper_idem s : str_map toupper (str_map toupper s) = str_map toupper s.
Proof.
  induction s as [|c s IH]; [reflexivity|]. cbn.
  destruct (toupper_facts c) as (_ & -> & _). rewrite IH. reflexivity.
Qed.

Lemma str_map_upcase_head s : str_map toupper (upcase_head s) = str_map toupper s.
Proof.
  induction s as [|c s IH]; [reflexivity|]. cbn [upcase_head].
  destruct (Ascii.eqb c SPACE); [reflexivity|]. cbn.
  destruct (toupper_facts c) as (_ & -> & _). rewrite IH. reflexivity.
Qed.

Lemma str_take_upcase_head n : forall s,
  str_take n (upcase_head s) = upcase_head (str_take n s).
Proof.
  induction n as [|n IH]; intros [|c s]; try reflexivity;
    try (cbn [upcase_head]; destruct (Ascii.eqb c SPACE); reflexivity).
  change (str_take (S n) (String c s)) with (String c (str_take n s)).
  cbn [upcase_head]. destruct (Ascii.eqb c SPACE) eqn:E.
  - reflexivity.
  - cbn [str_take]. rewrite IH. reflexivity.
Qed.

Lemma strchr_upcase_head s : strchr (upcase_head s) SPACE = strchr s SPACE.
Proof.
  induction s as [|c s IH]; [reflexivity|]. cbn [upcase_head].
  destruct (Ascii.eqb c SPACE) eqn:E; [reflexivity|].
  cbn [strchr]. destruct (toupper_facts c) as (_ & _ & -> & _).
  rewrite E, IH. reflexivity.
Qed.

(** Up to the first space the two lines differ in case only. *)
Lemma upcase_head_take s : forall i,
  strchr s SPACE = Some i ->
  str_map toupper (str_take i (upcase_head s)) = str_map toupper (str_take i s).
Proof.
  induction s as [|c s IH]; intros i H; [discriminate|].
  cbn [strchr] in H. cbn [upcase_head].
  destruct (Ascii.eqb c SPACE) eqn:E.
  - reflexivity.
  - destruct (strchr s SPACE) as [j|] eqn:Ej; [|discriminate].
    injection H as <-. cbn [str_take str_map].
    destruct (toupper_facts c) as (_ & -> & _).
    rewrite (IH j eq_refl). reflexivity.
Qed.

Lemma upcase_head_drop s : forall i,
  strchr s SPACE = Some i -> str_drop (S i) (upcase_head s) = str_drop (S i) s.
Proof.
  induction s as [|c s IH]; intros i H; [discriminate|].
  cbn [strchr] in H. cbn [upcase_head].
  destruct (Ascii.eqb c SPACE) eqn:E; [reflexivity|].
  destruct (strchr s SPACE) as [j|] eqn:Ej; [|discriminate].
  injection H as <-. cbn [str_drop]. apply (IH j eq_refl).
Qed.

(** A space found in a prefix is the first space of the whole string. *)
Lemma strchr_take n : forall s i,
  strchr (str_take n s) SPACE = Some i -> strchr s SPACE = Some i.
Proof.
  induction n as [|n IH]; intros [|c s] i H; try discriminate.
  cbn [str_take strchr] in *.
  destruct (Ascii.eqb c SPACE); [exact H|].
  destruct (strchr (str_take n s) SPACE) as [j|] eqn:Ej; [|discriminate].
  rewrite (IH s j Ej). exact H.
Qed.
Lemma strchr_lt s : forall i, strchr s SPACE = Some i -> (i < String.length s)%nat.
Proof.
  induction s as [|c s IH]; intros i H; [discriminate|].
  cbn [strchr] in H. destruct (Ascii.eqb c SPACE).
  - injection H as <-. cbn. lia.
  - destruct (strchr s SPACE) as [j|] eqn:Ej; [|discriminate].
    injection H as <-. cbn. specialize (IH j eq_refl). lia.
Qed.

Lemma str_take_length n : forall s, (String.length (str_take n s) <= n)%nat.
Proof.
  induction n as [|n IH]; intros [|c s]; cbn; try lia.
  specialize (IH s). lia.
Qed.

Lemma tokenise_upcase_head l : tokenise (upcase_head l) = tokenise l.
Proof.
  unfold tokenise. rewrite str_take_upcase_head, strchr_upcase_head.
  destruct (strchr (str_take 127 l) SPACE) as [i|] eqn:Ei.
  - pose proof (strchr_take _ _ _ Ei) as Hfull.
    rewrite (upcase_head_drop l i Hfull).
    f_equal.
    rewrite (upcase_head_take (str_take 127 l) i Ei). reflexivity.
  - rewrite str_map_upcase_head. reflexivity.
Qed.

Lemma skip_blanks_upcase_verb s : skip_blanks (upcase_verb s) = upcase_head (skip_blanks s).
Proof.
  induction s as [|c s IH]; [reflexivity|].
  cbn [upcase_verb skip_blanks]. destruct (is_blank c) eqn:E.
  - cbn [skip_blanks]. rewrite E. exact IH.
  - assert (Es : Ascii.eqb c SPACE = false).
    { unfold is_blank in E. apply orb_false_elim in E. apply E. }
    cbn [upcase_head]. rewrite Es. cbn [skip_blanks].
    destruct (toupper_facts c) as (_ & _ & _ & ->). rewrite E. reflexivity.
Qed.

Lemma upcase_head_empty s : String.eqb (upcase_head s) "" = String.eqb s "".
Proof.
  destruct s as [|c s]; [reflexivity|]. cbn [upcase_head].
  destruct (Ascii.eqb c SPACE); reflexivity.
Qed.

Lemma skip_blanks_no_blank s : starts_blank (skip_blanks s) = false.
Proof.
  induction s as [|c s IH]; [reflexivity|]. cbn [skip_blanks].
  destruct (is_blank c) eqn:E; [exact IH|]. cbn. exact E.
Qed.

Lemma take_before_space s : forall i,
  strchr s SPACE = Some i -> count_char SPACE (str_take i s) = 0%nat.
Proof.
  induction s as [|c s IH]; intros i H; [discriminate|].
  cbn [strchr] in H. destruct (Ascii.eqb c SPACE) eqn:E.
  - injection H as <-. reflexivity.
  - destruct (strchr s SPACE) as [j|] eqn:Ej; [|discriminate].
    injection H as <-. cbn [str_take count_char]. rewrite E. apply (IH j eq_refl).
Qed.

Lemma no_space_found s : strchr s SPACE = None -> count_char SPACE s = 0%nat.
Proof.
  induction s as [|c s IH]; intros H; [reflexivity|].
  cbn [strchr] in H. cbn [count_char]. destruct (Ascii.eqb c SPACE); [discriminate|].
  destruct (strchr s SPACE); [discriminate|]. apply IH. reflexivity.
Qed.

Lemma str_map_toupper_shape s :
  count_char SPACE (str_map toupper s) = count_char SPACE s /\
  String.length (str_map toupper s) = String.length s /\
  str_forall (fun c => negb (is_lower c)) (str_map toupper s) = true.
Proof.
  induction s as [|c s (IH1 & IH2 & IH3)]; [repeat split|].
  cbn. destruct (toupper_facts c) as (Hl & _ & Hs & _).
  rewrite Hl, Hs, IH1, IH2, IH3. repeat split.
Qed.

(** X16.  Whatever the line, the verb that [handleCommandLine] compares
    contains no space and no lower-case letter and has at most 127
    characters, and the argument, when there is one, does not start with
    a space or tab; there is no argument exactly when the first 127
    characters of the line contain no space. *)
Theorem tokenise_shape (line : string) :
  let tok := tokenise line in
  count_char SPACE (fst tok) = 0%nat /\
  (String.length (fst tok) <= 127)%nat /\
  str_forall (fun c => negb (is_lower c)) (fst tok) = true /\
  (forall arg, snd tok = Some arg -> starts_blank arg = false) /\
  (snd tok = None <-> count_char SPACE (str_take 127 line) = 0%nat).
Proof.
  intros tok. subst tok. unfold tokenise.
  pose proof (str_take_length 127 line) as Hlen.
  destruct (strchr (str_take 127 line) SPACE) as [i|] eqn:Ei; cbn [fst snd].
  - pose proof (take_before_space _ _ Ei) as Hsp.
    pose proof (strchr_lt _ _ Ei) as Hlt.
    destruct (str_map_toupper_shape (str_take i (str_take 127 line))) as (H1 & H2 & H3).
    pose proof (str_take_length i (str_take 127 line)) as Hli.
    rewrite H1, H2, H3, Hsp.
    split; [reflexivity|]. split; [lia|]. split; [reflexivity|]. split.
    + intros arg Harg. injection Harg as <-. apply skip_blanks_no_blank.
    + split; [discriminate|]. intros Hnone. exfalso.
      clear -Ei Hnone. revert i Ei Hnone.
      induction (str_take 127 line) as [|c s IH]; intros i Ei Hnone; [discriminate|].
      cbn [strchr count_char] in *. destruct (Ascii.eqb c SPACE); [discriminate|].
      destruct (strchr s SPACE) as [j|]; [|discriminate].
      apply (IH j eq_refl). exact Hnone.
  - pose proof (no_space_found _ Ei) as Hsp.
    destruct (str_map_toupper_shape (str_take 127 line)) as (H1 & H2 & H3).
    rewrite H1, H2, H3, Hsp.
    split; [reflexivity|]. split; [lia|]. split; [reflexivity|]. split.
    + intros arg Harg. discriminate.
    + split; reflexivity.
Qed.

Lemma serial_lines_from_app pf o1 : forall cur o2,
  serial_lines_from pf cur (o1 ++ o2) =
  (serial_lines_from pf cur o1 ++ serial_lines_from pf (pending pf cur o1) o2)%list.
Proof.
  induction o1 as [|e o1 IH]; intros cur o2; [reflexivity|].
  destruct e; cbn [app serial_lines_from pending]; rewrite ?IH; reflexivity.
Qed.

Lemma pending_app pf o1 : forall cur o2,
  pending pf cur (o1 ++ o2) = pending pf (pending pf cur o1) o2.
Proof.
  induction o1 as [|e o1 IH]; intros cur o2; [reflexivity|].
  destruct e; cbn [app pending]; apply IH.
Qed.

Section CommandProofs.
Context {P : Platform} {mc : MeComClient}.

(** X17.  Verbs are matched without regard to case and the argument is
    left as typed: upper-casing the verb of a line (the characters after
    the leading blanks up to the first space) changes neither the state
    nor the output of the dispatcher. *)
Theorem verbs_are_case_insensitive (line : string) (d : Device) :
  handleCommandLine (upcase_verb line) d = handleCommandLine line d.
Proof.
  unfold handleCommandLine.
  rewrite skip_blanks_upcase_verb, upcase_head_empty, tokenise_upcase_head.
  reflexivity.
Qed.

(** X5.  Every command line gets exactly one reply line, which starts
    with [OK ] or [ERR ], and leaves no unterminated text on the link; a
    line that is empty or all blanks gets no output at all. *)
Theorem one_reply_per_command (line : string) (d : Device)
  (printFloat : float -> Z -> string) :
  let t := output_of (handleCommandLine line d) in
  pending printFloat "" t = "" /\
  (skip_blanks line = "" -> t = []) /\
  (skip_blanks line <> "" ->
   exists reply,
     serial_lines printFloat t = [reply] /\
     (prefix "OK " reply = true \/ prefix "ERR " reply = true)).
Proof.
  intros t. subst t. unfold handleCommandLine.
  destruct (String.eqb_spec (skip_blanks line) "") as [E|E].
  { split; [reflexivity|]. split; [reflexivity|]. intros H; contradiction. }
  destruct (tokenise (skip_blanks line)) as [tmp arg].
  split; [|split; [intros H; contradiction|intros _]].
  - split_ifs; run_command; split_ifs; reflexivity.
  - split_ifs; run_command; split_ifs;
      (eexists; split; [reflexivity|]; cbn; auto).
Qed.

(** X7.  What a command can do: it issues at most one write (a MeCom set
    or the pump duty) and never a parameter query; it leaves the pulse
    counter, the tick time, the environmental cache and the command
    buffer alone; only SETPWR and SETPOWER change the device state; PING,
    GET and unknown verbs cause no bus traffic; and a commanded speed in
    0..100 stays in 0..100. *)
Theorem command_effects (line : string) (d : Device) :
  let tok := tokenise (skip_blanks line) in
  let r := handleCommandLine line d in
  (List.length (filter is_write (output_of r)) <= 1)%nat /\
  filter is_get (output_of r) = [] /\
  same_sensors d (state_of r) /\ cmdBuf (state_of r) = cmdBuf d /\
  (fst tok <> "SETPWR" -> fst tok <> "SETPOWER" -> state_of r = d) /\
  (fst tok = "PING" \/ fst tok = "GET" \/ known_verb (fst tok) = false ->
   filter is_serial (output_of r) = output_of r) /\
  (0 <= currentSpeedPercent d <= 100 ->
   0 <= currentSpeedPercent (state_of r) <= 100).
Proof.
  intros tok r. subst tok r. unfold handleCommandLine.
  destruct (String.eqb_spec (skip_blanks line) "") as [E|E].
  { cbn. repeat split; auto; lia. }
  destruct (tokenise (skip_blanks line)) as [tmp arg]. cbn [fst].
  pose proof (constrain_range (atoi (arg_text arg)) 0 100 ltac:(lia)) as Hc.
  unfold known_verb.
  destruct (String.eqb_spec tmp "PING") as [->|?];
  [|destruct (String.eqb_spec tmp "GET") as [->|?];
  [|destruct (String.eqb_spec tmp "RESET") as [->|?];
  [|destruct (String.eqb_spec tmp "SETC") as [->|?];
  [|destruct (String.eqb_spec tmp "SETT") as [->|?];
  [|destruct (String.eqb_spec tmp "SETPWR") as [->|?];
  [|destruct (String.eqb_spec tmp "SETPOWER") as [->|?]]]]]]];
  cbn [orb]; split_ifs; run_command; split_ifs;
  cbn [filter is_write is_get is_serial List.length currentSpeedPercent
       set_currentSpeedPercent];
  repeat split; auto; try lia; try congruence;
  try (intros [H|[H|H]]; discriminate).
Qed.

(** X6.  RESET writes 1 to parameter 111 and answers [OK RESET] or
    [ERR RESET] as the client accepts or rejects the write.  SETC and
    SETT with an argument write the value [atof] reads from it to
    parameter 2102, respectively 4000; if the write is accepted the reply
    echoes the written value with 3, respectively 2 digits, otherwise it
    is [ERR SETC], respectively [ERR SETT].  The device state is left
    as it was. *)
Theorem setpoint_commands (line : string) (d : Device) :
  let tok := tokenise (skip_blanks line) in
  let r := handleCommandLine line d in
  (fst tok = "RESET" ->
   r = (tt, d,
        MeCom_setl 111 INST_COMMON 1 ::
        [Serial_println
           (SStr (if u8 (MeCom_ParValuel_set DEV_ADDRESS 111 INST_COMMON 1) =? 1
                  then "OK RESET" else "ERR RESET"))])) /\
  (forall arg, snd tok = Some arg -> arg <> "" ->
     (fst tok = "SETC" ->
      r = (tt, d,
           MeCom_setf 2102 INST_MON (atof arg) ::
           (if u8 (MeCom_ParValuef_set DEV_ADDRESS 2102 INST_MON (atof arg)) =? 1
            then [Serial_print (SStr "OK SETC ");
                  Serial_println (SFloat (atof arg) 3)]
            else [Serial_println (SStr "ERR SETC")]))) /\
     (fst tok = "SETT" ->
      r = (tt, d,
           MeCom_setf 4000 INST_MON (atof arg) ::
           (if u8 (MeCom_ParValuef_set DEV_ADDRESS 4000 INST_MON (atof arg)) =? 1
            then [Serial_print (SStr "OK SETT ");
                  Serial_println (SFloat (atof arg) 2)]
            else [Serial_println (SStr "ERR SETT")])))).
Proof.
  intros tok r. subst tok r. unfold handleCommandLine.
  destruct (String.eqb_spec (skip_blanks line) "") as [E|_].
  { rewrite E. cbn. split; [discriminate|].
    intros arg H. discriminate. }
  destruct (tokenise (skip_blanks line)) as [tmp a]. cbn [fst snd].
  split.
  - intros ->. cbn -[u8]. run_command. split_ifs; reflexivity.
  - intros arg -> Hne.
    assert (Hm : missing (Some arg) = false) by (destruct arg; [contradiction|reflexivity]).
    split; intros ->; cbn -[u8 missing]; rewrite Hm; run_command; cbn [arg_text];
      split_ifs; reflexivity.
Qed.

(** A command leaves no unterminated text and keeps the speed in range. *)
Lemma handleCommandLine_tidy line d pf :
  pending pf "" (output_of (handleCommandLine line d)) = "" /\
  (0 <= currentSpeedPercent d <= 100 ->
   0 <= currentSpeedPercent (state_of (handleCommandLine line d)) <= 100).
Proof.
  unfold handleCommandLine.
  destruct (String.eqb (skip_blanks line) ""); [split; [reflexivity|auto]|].
  destruct (tokenise (skip_blanks line)) as [tmp arg].
  pose proof (constrain_range (atoi (arg_text arg)) 0 100 ltac:(lia)) as Hc.
  split_ifs; run_command; split_ifs;
    cbn [pending currentSpeedPercent set_currentSpeedPercent]; split; auto.
Qed.
Lemma pollUsbCommands_tidy input pf : forall d,
  pending pf "" (output_of (pollUsbCommands input d)) = "" /\
  (0 <= currentSpeedPercent d <= 100 ->
   0 <= currentSpeedPercent (state_of (pollUsbCommands input d)) <= 100).
Proof.
  induction input as [|c rest IH]; intros d; [split; [reflexivity|auto]|].
  rewrite pollUsbCommands_cons.
  destruct (Ascii.eqb c CR_CHAR); [apply IH|].
  destruct (Ascii.eqb c LF_CHAR).
  - cbv zeta. cbn [state_of output_of fst snd].
    destruct (handleCommandLine_tidy (c_str (cmdBuf d)) d pf) as [Hp Hs].
    destruct (IH (set_cmdBuf "" (state_of (handleCommandLine (c_str (cmdBuf d)) d))))
      as [Hp' Hs'].
    split.
    + rewrite pending_app, Hp. exact Hp'.
    + intros Hd. apply Hs'. cbn [currentSpeedPercent set_cmdBuf]. apply Hs, Hd.
  - destruct (String.length (cmdBuf d) <? 127)%nat; [|apply IH].
    destruct (IH (set_cmdBuf (cmdBuf d ++ String c "") d)) as [Hp Hs].
    split; [exact Hp|exact Hs].
Qed.

Lemma act_speed a d :
  0 <= currentSpeedPercent d <= 100 -> 0 <= currentSpeedPercent (act a d) <= 100.
Proof.
  intros Hd. destruct a as [|inp]; [exact Hd|].
  cbn [act]. pose proof (loop_run inp d) as Hrun. cbv zeta in Hrun. rewrite Hrun.
  destruct (pollUsbCommands_tidy (usb_in inp) (fun _ _ => "") d) as [_ Hs].
  specialize (Hs Hd).
  destruct (tick_due inp d); cbv zeta; cbn [state_of fst snd]; [|exact Hs].
  change (snd (fst (telemetry inp ?x))) with (state_of (telemetry inp x)).
  rewrite telemetry_final. unfold telemetry_state.
  destruct (fst (fst (hdc_of inp _))); exact Hs.
Qed.

(** X8.  Along every run of interrupts and loop passes from the initial
    state the commanded pump speed stays within 0..100; ticks and
    interrupts leave it as it is, and the power column of every row
    prints it. *)
Theorem speed_stays_in_range (l : list action) (inp : LoopInput) :
  let d := run l initial in
  0 <= currentSpeedPercent d <= 100 /\
  power_field (output_of (telemetry inp d)) = [SLong (currentSpeedPercent d)] /\
  currentSpeedPercent (state_of (telemetry inp d)) = currentSpeedPercent d /\
  currentSpeedPercent (ISR_fg d) = currentSpeedPercent d.
Proof.
  intros d. subst d. split; [|split; [|split]].
  - assert (H0 : 0 <= currentSpeedPercent initial <= 100) by (cbn; lia).
    revert H0. generalize initial.
    induction l as [|a l IH]; intros d Hd; [exact Hd|].
    cbn [run fold_left]. fold (run l (act a d)). apply IH, act_speed, Hd.
  - unfold power_field. rewrite telemetry_row. reflexivity.
  - rewrite telemetry_final. unfold telemetry_state.
    destruct (fst (fst (hdc_of inp _))); reflexivity.
  - reflexivity.
Qed.

(** X9.  The lines a pass of [loop] prints are the replies to the
    commands it read followed, if 1000 ms or more have passed since the
    last tick (in 32-bit unsigned arithmetic, so also across the
    wrap-around of [millis()]), by exactly one telemetry row, and by
    nothing otherwise.  A tick records its time, so that a pass at the
    same millisecond does not tick again; without a tick the recorded
    time stays. *)
Theorem loop_pass_output (inp : LoopInput) (d : Device)
  (printFloat : float -> Z -> string) :
  let replies := serial_lines printFloat (output_of (pollUsbCommands (usb_in inp) d)) in
  let rows := serial_lines printFloat (output_of (telemetry inp (tick_state inp d))) in
  serial_lines printFloat (output_of (loop inp d)) =
    (replies ++ (if tick_due inp d then rows else []))%list /\
  List.length rows = 1%nat /\
  lastPrint (state_of (loop inp d)) =
    (if tick_due inp d then u32 (millis inp) else lastPrint d) /\
  (tick_due inp d = true -> tick_due inp (state_of (loop inp d)) = false).
Proof.
  intros replies rows. subst replies rows.
  pose proof (loop_run inp d) as Hrun. cbv zeta in Hrun. rewrite Hrun.
  destruct (pollUsbCommands_tidy (usb_in inp) printFloat d) as [Hpend _].
  pose proof (pollUsbCommands_frame (usb_in inp) d) as (_ & _ & Hlp & _).
  assert (Hlast : forall x, lastPrint (state_of (telemetry inp x)) = lastPrint x).
  { intros x. rewrite telemetry_final. unfold telemetry_state.
    destruct (fst (fst (hdc_of inp x))); reflexivity. }
  split; [|split; [|split]].
  - destruct (tick_due inp d); cbv zeta; cbn [output_of snd].
    + unfold serial_lines. rewrite serial_lines_from_app.
      fold (output_of (pollUsbCommands (usb_in inp) d)). rewrite Hpend. reflexivity.
    + rewrite !app_nil_r. reflexivity.
  - destruct (telemetry_one_line printFloat inp (tick_state inp d)) as [row ->].
    reflexivity.
  - destruct (tick_due inp d); cbv zeta; cbn [state_of fst snd].
    + change (snd (fst (telemetry inp ?x))) with (state_of (telemetry inp x)).
      rewrite Hlast. reflexivity.
    + exact Hlp.
  - intros Hdue. rewrite Hdue. cbv zeta. cbn [state_of fst snd].
    change (snd (fst (telemetry inp ?x))) with (state_of (telemetry inp x)).
    unfold tick_due. rewrite Hlast. cbn [lastPrint set_lastPrint].
    rewrite Z.sub_diag. reflexivity.
Qed.

(** X10.  Whatever the outcome of the sensor reads and of the earlier
    queries, a tick issues the same 27 parameter queries in the same
    order (no query is skipped after a failure), and it never writes a
    parameter or the pump output. *)
Theorem telemetry_bus_traffic (inp : LoopInput) (d : Device) :
  filter (fun e => negb (is_serial e)) (output_of (telemetry inp d)) =
    telemetry_queries /\
  filter is_write (output_of (telemetry inp d)) = [].
Proof.
  split; run_tick inp d; reflexivity.
Qed.

End CommandProofs.

(** ** Sensor conversions *)

Lemma all_from_spec n : forall z p,
  all_from n z p = true -> forall k, z <= k < z + Z.of_nat n -> p k = true.
Proof.
  induction n as [|n IH]; intros z p H k Hk; [lia|].
  cbn [all_from] in H. apply andb_prop in H. destruct H as [Hz Hrest].
  destruct (Z.eq_dec k z) as [->|Hne]; [exact Hz|].
  apply (IH (z + 1) p Hrest). lia.
Qed.

Lemma all_below_spec n p :
  all_below n p = true -> forall k, 0 <= k < Z.of_nat n -> p k = true.
Proof. intros H k Hk. apply (all_from_spec n 0 p H). lia. Qed.

Lemma float_same_eq x y : float_same x y = true -> x = y.
Proof.
  destruct x as [s|s| |s m e], y as [s'|s'| |s' m' e']; cbn; try discriminate.
  - intros H. apply Bool.eqb_prop in H. congruence.
  - intros H. apply Bool.eqb_prop in H. congruence.
  - reflexivity.
  - intros H. apply andb_prop in H. destruct H as [H He].
    apply andb_prop in H. destruct H as [Hs Hm].
    apply Bool.eqb_prop in Hs. apply Pos.eqb_eq in Hm. apply Z.eqb_eq in He.
    congruence.
Qed.

Lemma rising_from_spec n f ok : forall z prev,
  rising_from n z prev f ok = true -> prev = f (z - 1) ->
  forall k, z <= k < z + Z.of_nat n ->
    ok (f k) = true /\ f32_ltb (f (k - 1)) (f k) = true.
Proof.
  induction n as [|n IH]; intros z prev H Hprev k Hk; [lia|].
  cbn [rising_from] in H. cbv zeta in H.
  apply andb_prop in H. destruct H as [H Hrest].
  apply andb_prop in H. destruct H as [Hlt Hok].
  destruct (Z.eq_dec k z) as [->|Hne].
  - rewrite <- Hprev. split; assumption.
  - apply (IH (z + 1) (f z) Hrest); [f_equal; lia | lia].
Qed.

Lemma hdc_check :
  (let c65536 := f32_of_Z 65536 in let c165 := f32_of_Z 165 in
   let c40 := f32_of_Z 40 in let c100 := f32_of_Z 100 in
   let lo_t := f32_of_Z (-40) in let hi_t := f32_of_Z 125 in
   let lo_h := f32_of_Z 0 in
   all_below (Z.to_nat 65536)
     (hdc_in_range c65536 c165 c40 c100 lo_t hi_t lo_h c100)) = true.
Proof. vm_cast_no_check (eq_refl true). Qed.

Lemma hdc_ranges raw :
  0 <= raw < 65536 ->
  temp_in_range (hdc_temp raw) = true /\ hum_in_range (hdc_hum raw) = true.
Proof.
  intros Hraw. pose proof hdc_check as H. cbv zeta in H.
  pose proof (all_below_spec _ _ H raw) as Hk.
  rewrite Z2Nat.id in Hk by lia. specialize (Hk Hraw).
  apply andb_prop in Hk. exact Hk.
Qed.

Lemma pressure_check :
  (let f := pressure_with Out_min (f32_sub P_max P_min) (f32_sub Out_max Out_min)
                          P_min (f32_of_Z 1000) in
   let ok := pressure_ok (f32_of_Z (-200)) (f32_of_Z 1800) in
   let p0 := f 0 in
   ok p0 && rising_from (Z.to_nat 16383) 1 p0 f ok) = true.
Proof. vm_cast_no_check (eq_refl true). Qed.

Lemma pressure_points raw :
  0 <= raw < 16384 ->
  is_nan (pressure_calibration raw) = false /\
  pressure_in_range (pressure_calibration raw) = true /\
  (1 <= raw ->
   f32_ltb (pressure_calibration (raw - 1)) (pressure_calibration raw) = true).
Proof.
  intros Hraw. pose proof pressure_check as H. cbv zeta in H.
  apply andb_prop in H. destruct H as [H0 Hrise].
  change (pressure_with Out_min (f32_sub P_max P_min) (f32_sub Out_max Out_min)
            P_min (f32_of_Z 1000)) with pressure_calibration in H0, Hrise.
  assert (Hok : pressure_ok (f32_of_Z (-200)) (f32_of_Z 1800)
                  (pressure_calibration raw) = true /\
                (1 <= raw ->
                 f32_ltb (pressure_calibration (raw - 1)) (pressure_calibration raw)
                 = true)).
  { destruct (Z.eq_dec raw 0) as [->|Hne].
    - split; [exact H0 | lia].
    - destruct (rising_from_spec _ _ _ 1 _ Hrise eq_refl raw) as [Ho Hl].
      + rewrite Z2Nat.id by lia. lia.
      + split; [exact Ho | intros _; exact Hl]. }
  destruct Hok as [Ho Hl]. unfold pressure_ok in Ho.
  apply andb_prop in Ho. destruct Ho as [Hn Hr].
  apply negb_true_iff in Hn. split; [exact Hn|]. split; [exact Hr | exact Hl].
Qed.

Lemma rpm_check :
  all_below (Z.to_nat 65536)
    (fun dp => float_same
                 (f32_div (f32_mul (f32_of_Z dp) (f32_of_Z 60)) (f32_of_Z PULSES_PER_REV))
                 (f32_of_Z (10 * dp))) = true.
Proof. vm_cast_no_check (eq_refl true). Qed.

Lemma u16_range x : 0 <= u16 x < 65536.
Proof. unfold u16. pose proof (Z.mod_pos_bound x (2 ^ 16)). lia. Qed.

(** X11.  A successful [readHDCData] always delivers a temperature in
    [-40, 125) degrees and a humidity in [0, 100) percent, whatever four
    bytes the sensor sent; a failed one returns its two reference
    arguments untouched.  The raw values are assembled little-endian:
    first byte low, second byte high. *)
Theorem hdc_conversion_range (w : WireReply) (t h : float) :
  match readHDCData w t h with
  | (true, t', h') => temp_in_range t' = true /\ hum_in_range h' = true
  | (false, t', h') => t' = t /\ h' = h
  end /\
  (forall b0 b1 b2 b3,
     0 <= b0 < 256 -> 0 <= b1 < 256 -> 0 <= b2 < 256 -> 0 <= b3 < 256 ->
     readHDCData (mkWire 0 4 (b0, b1, b2, b3)) t h =
     (true, hdc_temp (b0 + 256 * b1), hdc_hum (b2 + 256 * b3))).
Proof.
  split.
  - unfold readHDCData.
    destruct (negb (endTransmission w =? 0)); [split; reflexivity|].
    destruct (negb (u8 (requestFrom w) =? 4)); [split; reflexivity|].
    destruct (wire_data w) as [[[b0 b1] b2] b3].
    split.
    + apply (hdc_ranges _ (u16_range _)).
    + apply (hdc_ranges _ (u16_range _)).
  - intros b0 b1 b2 b3 H0 H1 H2 H3. unfold readHDCData. cbn -[u16 Z.lor Z.shiftl f32_of_Z f32_sub f32_mul f32_div].
    assert (Hle : forall a b, 0 <= a < 256 -> 0 <= b < 256 ->
                              u16 (Z.lor a (Z.shiftl b 8)) = a + 256 * b).
    { intros a b Ha Hb. rewrite (lor_low_high a b Ha).
      unfold u16. apply Z.mod_small. lia. }
    rewrite !Hle by assumption. reflexivity.
Qed.

(** X12.  Decoding the two SPI bytes loses nothing: the status is the top
    two bits of the first byte, the raw count the remaining 14 bits, and
    the two bytes are recovered from status and raw count; the status
    returned by [readPressure] is that status. *)
Theorem pressure_word_decoding (byte1 byte2 : Z) :
  0 <= byte1 < 256 -> 0 <= byte2 < 256 ->
  let status := status_of byte1 in
  let rawCounts := rawCounts_of byte1 byte2 in
  0 <= status <= 3 /\ 0 <= rawCounts < 16384 /\
  byte1 = 64 * status + rawCounts / 256 /\ byte2 = rawCounts mod 256 /\
  snd (readPressure (byte1, byte2)) = status.
Proof.
  intros H1 H2 status rawCounts. subst status rawCounts.
  destruct (pressure_word byte1 byte2 H1 H2) as [-> ->].
  pose proof (Z.mod_pos_bound byte1 64 ltac:(lia)) as Hm.
  pose proof (Z.div_mod byte1 64 ltac:(lia)) as Hdm.
  assert (Hq : 0 <= byte1 / 64 <= 3).
  { split; [apply Z.div_pos; lia|].
    assert (byte1 / 64 < 4) by (apply Z.div_lt_upper_bound; lia). lia. }
  split; [exact Hq|]. split; [lia|]. split; [|split].
  - replace ((byte1 mod 64 * 256 + byte2) / 256) with (byte1 mod 64)
      by (apply (Z.div_unique _ _ _ byte2); lia). lia.
  - apply (Z.mod_unique _ _ (byte1 mod 64)); lia.
  - unfold readPressure. cbn [fst snd].
    assert (Hu : u8 byte1 = byte1) by (unfold u8; apply Z.mod_small; lia).
    rewrite Hu.
    destruct (pressure_word byte1 byte2 H1 H2) as [Hs _].
    destruct (status_of byte1 =? 0); cbn [snd]; exact Hs.
Qed.

(** X13.  [readPressure] returns NaN exactly when the status is not 0;
    with status 0 the pressure lies within -200..1800 mb for every raw
    count.  Each further raw count raises the computed pressure, and the
    calibration points are met exactly: 1638 counts give 0 mb, 14746
    counts give 1600 mb. *)
Theorem pressure_calibration_range :
  (forall spi,
     let p := fst (readPressure spi) in
     let status := snd (readPressure spi) in
     (is_nan p = true <-> status <> 0) /\
     (status = 0 -> pressure_in_range p = true)) /\
  (forall raw, 0 <= raw < 16383 ->
     f32_ltb (pressure_calibration raw) (pressure_calibration (raw + 1)) = true) /\
  pressure_calibration 1638 = f32_of_Z 0 /\
  pressure_calibration 14746 = f32_of_Z 1600.
Proof.
  split; [|split; [|split]].
  - intros spi p status. subst p status. unfold readPressure.
    pose proof (u8_range (fst spi)) as H1. pose proof (u8_range (snd spi)) as H2.
    destruct (pressure_word _ _ H1 H2) as [_ Hraw].
    assert (Hr : 0 <= rawCounts_of (u8 (fst spi)) (u8 (snd spi)) < 16384).
    { rewrite Hraw.
      pose proof (Z.mod_pos_bound (u8 (fst spi)) 64 ltac:(lia)). lia. }
    destruct (pressure_points _ Hr) as (Hnan & Hrange & _).
    destruct (Z.eqb_spec (status_of (u8 (fst spi))) 0) as [E|E]; cbn [fst snd].
    + rewrite Hnan. split; [split; [discriminate|contradiction]|auto].
    + split; [split; auto|contradiction].
  - intros raw Hraw.
    destruct (pressure_points (raw + 1) ltac:(lia)) as (_ & _ & Hstep).
    replace (raw + 1 - 1) with raw in Hstep by lia. apply Hstep. lia.
  - vm_compute. reflexivity.
  - vm_compute. reflexivity.
Qed.

Section RpmProofs.
Context {P : Platform} {mc : MeComClient}.

(** X14.  For every pulse delta below 65536 the RPM computed and printed
    by a tick is exactly ten times the delta: the binary32 arithmetic of
    [dp * 60.0f / 6] loses nothing in that range. *)
Theorem rpm_is_ten_times_delta (inp : LoopInput) (d : Device) :
  pulse_delta d < 65536 ->
  pump_rpm_of d = f32_of_Z (10 * pulse_delta d) /\
  rpm_field (output_of (telemetry inp d)) = [SFloat (f32_of_Z (10 * pulse_delta d)) 0].
Proof.
  intros Hd.
  assert (Hrpm : pump_rpm_of d = f32_of_Z (10 * pulse_delta d)).
  { unfold pump_rpm_of. apply float_same_eq.
    apply (all_below_spec _ _ rpm_check). rewrite Z2Nat.id by lia.
    split; [|exact Hd]. unfold pulse_delta, u32.
    apply Z.mod_pos_bound. lia. }
  split; [exact Hrpm|].
  unfold rpm_field. rewrite telemetry_row. cbn [nth telemetry_fields].
  rewrite Hrpm. reflexivity.
Qed.

End RpmProofs.

(** * Further examples *)

(** X1 at work: a speed of -5 stops the pump, 55 percent gives duty 115. *)
Lemma pump_duty_inverse_witness :
  -5 <= 55 /\
  @setPumpSpeed (-5) initial = (tt, initial, [AnalogWrite 9 255]) /\
  @setPumpSpeed 55 initial = (tt, initial, [AnalogWrite 9 115]).
Proof.
  assert (Hle : -5 <= 55) by lia.
  destruct (pump_duty_inverse (-5) 55 initial Hle)
    as (vp & vq & Hp & Hq & _ & _ & Hstop & _).
  split; [exact Hle|]. split.
  - rewrite Hp, Hstop by lia. reflexivity.
  - rewrite Hq. vm_compute in Hq. injection Hq as <-. reflexivity.
Defined.

(** X4 at work: the bytes of [ping] and a line feed. *)
Lemma poll_dispatches_line_witness :
  one_line "ping" = true /\
  (String.length (cmdBuf initial) <= 127)%nat /\
  @pollUsbCommands demo_platform healthy_client
    (list_ascii_of_string "ping" ++ [LF_CHAR])%list initial
  = (tt, initial, [Serial_println (SStr "OK PONG")]).
Proof.
  assert (Hline : one_line "ping" = true) by reflexivity.
  assert (Hlen : (String.length (cmdBuf initial) <= 127)%nat) by (cbn; lia).
  split; [exact Hline|]. split; [exact Hlen|].
  rewrite (@poll_dispatches_line demo_platform healthy_client "ping" initial Hline Hlen).
  reflexivity.
Defined.

(** X12 at work: the bytes 70 and 102 carry status 1 and raw count 1638. *)
Lemma pressure_word_decoding_witness :
  0 <= 70 < 256 /\ 0 <= 102 < 256 /\
  status_of 70 = 1 /\ rawCounts_of 70 102 = 1638 /\
  70 = 64 * status_of 70 + rawCounts_of 70 102 / 256.
Proof.
  assert (H1 : 0 <= 70 < 256) by lia.
  assert (H2 : 0 <= 102 < 256) by lia.
  destruct (pressure_word_decoding 70 102 H1 H2) as (_ & _ & Hb & _).
  split; [exact H1|]. split; [exact H2|].
  split; [reflexivity|]. split; [reflexivity|exact Hb].
Defined.

(** X14 at work: six pulses, 60 RPM. *)
Lemma rpm_is_ten_times_delta_witness :
  @pulse_delta demo_device < 65536 /\
  @pump_rpm_of demo_device = f32_of_Z 60.
Proof.
  assert (Hd : @pulse_delta demo_device < 65536) by (vm_compute; reflexivity).
  split; [exact Hd|].
  destruct (@rpm_is_ten_times_delta demo_platform silent_client demo_pass
              demo_device Hd) as [Hrpm _].
  rewrite Hrpm. reflexivity.
Defined.

(** X18 at work: three bytes in a buffer of eight. *)
Lemma recv_stays_in_buffer_witness :
  1 <= 8 /\
  exists r,
    ArduinoSerial.recv_loop 8 20 demo_read demo_clock 11 0 [] = Some r /\
    Z.of_nat (List.length (ArduinoSerial.rcv_buf r)) <= 8 /\
    ArduinoSerial.rcv_buf r = [79; 75; 13].
Proof.
  assert (Hmax : 1 <= 8) by lia.
  split; [exact Hmax|].
  eexists. split; [vm_compute; reflexivity|].
  split; [|reflexivity].
  apply (recv_stays_in_buffer 8 20 demo_read demo_clock 11 _ Hmax).
  vm_compute. reflexivity.
Defined.

(** X19 at work: bytes that follow the carriage return do not change the
    frame. *)
Lemma recv_leaves_later_input_witness :
  ArduinoSerial.recv_loop 8 20 demo_read demo_clock 11 0 []
  = Some (ArduinoSerial.mkReceived [79; 75; 13] ArduinoSerial.StopEol 5) /\
  ArduinoSerial.recv_loop 8 20
    (fun j => if (j <? 5)%nat then demo_read j else 65) demo_clock 11 0 []
  = Some (ArduinoSerial.mkReceived [79; 75; 13] ArduinoSerial.StopEol 5).
Proof.
  assert (Hrun : ArduinoSerial.recv_loop 8 20 demo_read demo_clock 11 0 []
                 = Some (ArduinoSerial.mkReceived [79; 75; 13] ArduinoSerial.StopEol 5))
    by (vm_compute; reflexivity).
  split; [exact Hrun|].
  apply (recv_leaves_later_input 8 20 demo_read demo_clock _ demo_clock 11 _ _ _ Hrun).
  - intros j Hj. cbn [ArduinoSerial.rcv_iters] in Hj.
    destruct (Nat.ltb_spec j 5); [reflexivity|lia].
  - reflexivity.
  - intros j Hj. reflexivity.
Defined.

(** X9 at work: 600 ms after the last tick, with the millisecond counter
    wrapped in between, no row is due; 1100 ms after it, one is. *)
Example tick_across_millis_wrap :
  @tick_due demo_pass_early demo_device_late = false /\
  @tick_due demo_pass_wrapped demo_device_late = true /\
  List.length (serial_lines demo_printFloat
                 (output_of (@loop demo_platform silent_client demo_pass_early
                               demo_device_late))) = 0%nat /\
  List.length (serial_lines demo_printFloat
                 (output_of (@loop demo_platform silent_client demo_pass_wrapped
                               demo_device_late))) = 1%nat.
Proof. repeat split; vm_compute; reflexivity. Qed.
